(** * LLM Knowledge Extractor: a shallow embedding and its properties

    The development follows the layout of the repository:

    - [Py]      the few operations of Python's [str] the code relies on;
    - [Nlp]     [app/services/nlp_service.py]: keyword extraction;
    - [Llm]     [app/services/llm_service.py]: the metadata extractor;
    - [Json]    what the code uses of the json module, on lists of strings;
    - [Db]      [app/database.py]: the [analyses] table and its session;
    - [Models]  [app/models.py]: request and response models;
    - [Api]     [app/main.py]: the [analyze] and [search] handlers.

    Strings are [string]s of the Standard Library; a character stands for
    the Unicode code point of the same number (the code points below 256).
    External collaborators (the spaCy pipeline, the DSPy call with the
    parsing and validation of its payload, the clock, the database engine's
    commit and refresh) appear as inputs of the functions that call them;
    the LIKE operator of SQLite is written out, with the length it accepts
    for a pattern and its reading of a text up to the first NUL. *)

From Stdlib Require Import ZArith NArith String Ascii Lia PrimFloat.
From stdpp Require Import base option list strings sorting.

(** ** Python strings *)

Module Py.

Definition ord (c : ascii) : N := N_of_ascii c.

(** [str.isspace] on one character: the code points 0x09-0x0D, 0x1C-0x1F,
    0x20, 0x85 and 0xA0 are the white space below 256. *)
Definition isspace (c : ascii) : bool :=
  let n := ord c in
  ((9 <=? n) && (n <=? 13) || (28 <=? n) && (n <=? 32)
   || (n =? 133) || (n =? 160))%N.

(** [str.lower] on one character: A-Z, and the upper-case letters of the
    Latin-1 block (0xC0-0xDE without the multiplication sign 0xD7). *)
Definition lower_char (c : ascii) : ascii :=
  let n := ord c in
  if ((65 <=? n) && (n <=? 90)
      || (192 <=? n) && (n <=? 222) && negb (n =? 215))%N
  then ascii_of_N (n + 32) else c.

Fixpoint lower (s : string) : string :=
  match s with
  | EmptyString => EmptyString
  | String c s' => String (lower_char c) (lower s')
  end.

Fixpoint lstrip (s : string) : string :=
  match s with
  | EmptyString => EmptyString
  | String c s' => if isspace c then lstrip s' else s
  end.

Fixpoint rstrip (s : string) : string :=
  match s with
  | EmptyString => EmptyString
  | String c s' =>
      match rstrip s' with
      | EmptyString => if isspace c then EmptyString else String c EmptyString
      | r => String c r
      end
  end.

(** [s.strip()] without argument. *)
Definition strip (s : string) : string := rstrip (lstrip s).

(** Truth value of a string: [not s] holds of the empty string only. *)
Definition not_ (s : string) : bool :=
  match s with EmptyString => true | _ => false end.

Fixpoint startswith (p s : string) : bool :=
  match p, s with
  | EmptyString, _ => true
  | String _ _, EmptyString => false
  | String a p', String b s' => Ascii.eqb a b && startswith p' s'
  end.

(** [needle in hay]. *)
Fixpoint contains (needle hay : string) : bool :=
  startswith needle hay
  || match hay with
     | EmptyString => false
     | String _ hay' => contains needle hay'
     end.

(** The number of bytes of [s] in UTF-8: one for an ASCII character, two
    for each other character below 256. *)
Fixpoint utf8_length (s : string) : N :=
  match s with
  | EmptyString => 0%N
  | String c s' => ((if ord c <? 128 then 1 else 2) + utf8_length s')%N
  end.

(** Every character of [s] is white space. *)
Fixpoint all_space (s : string) : bool :=
  match s with
  | EmptyString => true
  | String c s' => isspace c && all_space s'
  end.

End Py.

(** ** Exceptions and fallible computations *)

(** The handler tells exceptions apart by [except ValueError],
    [except RuntimeError] and [except Exception], in that order; an
    exception is recorded with the first of the three classes it is an
    instance of (so a [json.JSONDecodeError] or a pydantic
    [ValidationError], both subclasses of [ValueError], count as
    [ValueError]) and with its [str(e)]. *)
Inductive ExcClass := ValueError | RuntimeError | Exception.

Record Exc := raise_ { exc_class : ExcClass; exc_str : string }.

Inductive result (A : Type) : Type :=
| Ok (a : A)
| Raise (e : Exc).
Arguments Ok {A} a.
Arguments Raise {A} e.

#[global] Instance result_ret : MRet result := fun A a => Ok a.
#[global] Instance result_bind : MBind result := fun A B f m =>
  match m with
  | Ok a => f a
  | Raise e => Raise e
  end.

(** ** app/services/nlp_service.py *)

Module Nlp.

(** The attributes of a spaCy token the code reads. *)
Record Token := {
  text : string;
  lemma_ : string;
  pos_ : string;
  is_stop : bool;
  is_punct : bool;
  is_alpha : bool
}.

(** The loaded pipeline: [nlp(s)] gives the tokens of the document, or
    raises. *)
Definition Pipeline := string -> result (list Token).

(** The condition of the list comprehension. *)
Definition is_keyword (token : Token) : bool :=
  (String.eqb (pos_ token) "NOUN" || String.eqb (pos_ token) "PROPN")
  && negb (is_stop token)
  && negb (is_punct token)
  && (2 <? String.length (text token))%nat
  && is_alpha token.

Fixpoint nouns_of (doc : list Token) : list string :=
  match doc with
  | [] => []
  | token :: doc' =>
      if is_keyword token then lemma_ token :: nouns_of doc'
      else nouns_of doc'
  end.

(** [collections.Counter]: a dict, hence an association list in order of
    first insertion. Counting an element adds one to its entry where it
    is, or appends a new entry. *)
Definition CounterT := list (string * nat).

Fixpoint count_one (c : CounterT) (elem : string) : CounterT :=
  match c with
  | [] => [(elem, 1%nat)]
  | (k, n) :: c' =>
      if String.eqb k elem then (k, S n) :: c'
      else (k, n) :: count_one c' elem
  end.

Definition Counter (elems : list string) : CounterT :=
  foldl count_one [] elems.

(** [sorted(items, key=itemgetter(1), reverse=True)]: a stable sort, so
    items of equal count keep their order. *)
Fixpoint insert_desc (x : string * nat) (l : CounterT) : CounterT :=
  match l with
  | [] => [x]
  | y :: l' =>
      if (snd y <=? snd x)%nat then x :: y :: l'
      else y :: insert_desc x l'
  end.

Definition sorted_desc (items : CounterT) : CounterT :=
  foldr insert_desc [] items.

(** [Counter.most_common(n)] is [heapq.nlargest(n, items, key=count)],
    that is [sorted(items, key=count, reverse=True)[:n]], and the empty
    list when [n <= 0]. *)
Definition most_common (n : Z) (c : CounterT) : CounterT :=
  take (Z.to_nat n) (sorted_desc c).

Definition extract_keywords (nlp : Pipeline) (text : string) (top_n : Z)
  : result (list string) :=
  if Py.not_ text || Py.not_ (Py.strip text) then Ok []
  else
    doc ← nlp (Py.lower text);
    let nouns := nouns_of doc in
    match nouns with
    | [] => Ok []
    | _ =>
        let noun_counts := Counter nouns in
        Ok (map fst (most_common top_n noun_counts))
    end.

End Nlp.

(** ** app/services/llm_service.py *)

Module Llm.

(** The pydantic model declares the types of its fields and nothing
    else: no length for [topics], no enumeration for [sentiment], no
    range for [confidence]. *)
Record ExtractedMetadata := {
  summary : string;
  title : option string;
  topics : list string;
  sentiment : string;
  confidence : float
}.

(** What [TextAnalyzer.forward] meets after its guard, one constructor
    for each place where the body can leave:
    - [CallRaises e]: [self.extract(text=text)] raises [e];
    - [NotJson why]: [json.loads(result.metadata)] raises a
      [JSONDecodeError] whose text is [why];
    - [NotMapping why]: the payload is JSON but not an object, and
      unpacking it into the call of [ExtractedMetadata] raises a
      [TypeError];
    - [Rejected why]: pydantic refuses the object with a
      [ValidationError] (a [ValueError]);
    - [Valid md]: the payload validates to [md]. *)
Inductive Extraction :=
| CallRaises (e : Exc)
| NotJson (why : string)
| NotMapping (why : string)
| Rejected (why : string)
| Valid (md : ExtractedMetadata).

(** A [TextAnalyzer] built on a configured language model. *)
Definition TextAnalyzer := string -> Extraction.

Definition forward (self : TextAnalyzer) (text : string)
  : result ExtractedMetadata :=
  if Py.not_ text || Py.not_ (Py.strip text)
  then Raise (raise_ ValueError "Text cannot be empty")
  else
    match self text with
    | CallRaises e => Raise e
    | NotJson why =>
        Raise (raise_ ValueError
                 ("Failed to parse LLM response as JSON: " +:+ why))
    | NotMapping why => Raise (raise_ Exception why)
    | Rejected why => Raise (raise_ ValueError why)
    | Valid md => Ok md
    end.

(** [configure_dspy] stores a fresh analyzer in the module's global. *)
Definition configure_dspy (lm : TextAnalyzer) : option TextAnalyzer :=
  Some lm.

Definition analyze_text (_analyzer : option TextAnalyzer) (text : string)
  : result ExtractedMetadata :=
  if Py.not_ text || Py.not_ (Py.strip text)
  then Raise (raise_ ValueError "Text cannot be empty")
  else
    match _analyzer with
    | None =>
        Raise (raise_ ValueError
          "DSPy not configured. Call configure_dspy() before analyzing text.")
    | Some analyzer =>
        match forward analyzer text with
        | Ok md => Ok md
        | Raise e =>
            if Py.contains "API" (exc_str e)
               || Py.contains "rate" (Py.lower (exc_str e))
            then Raise (raise_ RuntimeError
                          ("LLM API error: " +:+ exc_str e))
            else Raise e
        end
    end.

End Llm.

(** ** The json module and the text of a float *)

Module Json.

Definition dquote : ascii := ascii_of_N 34.

Definition hex_digit (n : N) : ascii :=
  if (n <? 10)%N then ascii_of_N (48 + n) else ascii_of_N (87 + n).

(** The escapes of [json.dumps] with [ensure_ascii]: the quote and the
    backslash, the short forms of five control characters, and four hex
    digits for every other character outside the printable ASCII range. *)
Definition escape_char (c : ascii) : string :=
  let n := Py.ord c in
  if (n =? 34)%N then String "\" (String dquote EmptyString)
  else if (n =? 92)%N then "\\"
  else if (n =? 8)%N then "\b"
  else if (n =? 12)%N then "\f"
  else if (n =? 10)%N then "\n"
  else if (n =? 13)%N then "\r"
  else if (n =? 9)%N then "\t"
  else if ((32 <=? n) && (n <=? 126))%N then String c EmptyString
  else "\u00" +:+ String (hex_digit (n / 16))
                    (String (hex_digit (n mod 16)) EmptyString).

Fixpoint escape (s : string) : string :=
  match s with
  | EmptyString => EmptyString
  | String c s' => escape_char c +:+ escape s'
  end.

Definition quote (s : string) : string :=
  String dquote (escape s +:+ String dquote EmptyString).

Fixpoint join_items (l : list string) : string :=
  match l with
  | [] => EmptyString
  | [s] => quote s
  | s :: l' => quote s +:+ ", " +:+ join_items l'
  end.

(** The JSON text of a list of strings, kept as the list it encodes:
    [dumps l] is the text [json.dumps(l)], [loads] reads the list back
    ([json.loads(json.dumps(l))] is [l]), and [text] spells the text out,
    in ASCII and with a comma and a space between the items. *)
Record Text := dumps { loads : list string }.

Definition text (j : Text) : string := "[" +:+ join_items (loads j) +:+ "]".

End Json.

(** The text [str(x)] of a float, kept as the float it denotes:
    [float(str(x))] is [x]. *)
Record FloatText := str_ { float_ : float }.

(** ** app/database.py *)

Module Db.

(** A row of [analyses]. The [topics] and [keywords] columns hold JSON
    text, the [confidence] column the text of a float. [id] and
    [created_at] are filled in when the row is inserted. *)
Record Analysis := {
  id : Z;
  raw_text : string;
  summary : string;
  title : option string;
  topics : Json.Text;
  sentiment : string;
  keywords : Json.Text;
  confidence : FloatText;
  created_at : Z
}.

(** The table, oldest row first. *)
Definition Table := list Analysis.

(** The session of one request: the table it is bound to, the objects
    added and not yet flushed, and the objects it has flushed. *)
Record Session := {
  table : Table;
  pending : list Analysis;
  persistent : list Analysis
}.

Definition get_db (t : Table) : Session :=
  {| table := t; pending := []; persistent := [] |}.

(** [db.close()]: what was not committed is dropped. *)
Definition close (db : Session) : Table := table db.

Definition max_id (t : Table) : Z := foldr (fun r m => Z.max (id r) m) 0%Z t.

(** An integer primary key: one more than the largest key in use. *)
Definition next_id (t : Table) : Z := (max_id t + 1)%Z.

Definition insert_row (now : Z) (t : Table) (a : Analysis) : Analysis :=
  {| id := next_id t; raw_text := raw_text a; summary := summary a;
     title := title a; topics := topics a; sentiment := sentiment a;
     keywords := keywords a; confidence := confidence a;
     created_at := now |}.

Fixpoint flush (now : Z) (t : Table) (objs : list Analysis)
  : Table * list Analysis :=
  match objs with
  | [] => (t, [])
  | a :: objs' =>
      let row := insert_row now t a in
      let '(t', rows) := flush now (t ++ [row]) objs' in
      (t', row :: rows)
  end.

Definition add (a : Analysis) (db : Session) : Session :=
  {| table := table db; pending := pending db ++ [a];
     persistent := persistent db |}.

(** [db.commit()]: the engine either refuses (nothing is written) or
    inserts the pending objects. *)
Definition commit (engine_error : option Exc) (now : Z) (db : Session)
  : Session * result unit :=
  match engine_error with
  | Some e =>
      ({| table := table db; pending := []; persistent := persistent db |},
       Raise e)
  | None =>
      let '(t', rows) := flush now (table db) (pending db) in
      ({| table := t'; pending := []; persistent := persistent db ++ rows |},
       Ok tt)
  end.

(** [db.refresh(analysis)] for the object the session flushed last: a
    round trip to the engine, which the engine may refuse; the row stays
    as the commit has written it. *)
Definition refresh (engine_error : option Exc) (db : Session)
  : result Analysis :=
  match engine_error with
  | Some e => Raise e
  | None =>
      match last (persistent db) with
      | Some row => Ok row
      | None =>
          Raise (raise_ Exception
                   "Instance is not persistent within this Session")
      end
  end.

(** The LIKE operator of SQLite on a pattern and a text it has read:
    [%] stands for any run of characters, [_] for any one character, and
    any other character of the pattern for itself, upper and lower case
    of A-Z being the same. *)
Definition fold_case (c : ascii) : ascii :=
  let n := Py.ord c in
  if ((65 <=? n) && (n <=? 90))%N then ascii_of_N (n + 32) else c.

Fixpoint like_match (pattern : string) : string -> bool :=
  match pattern with
  | EmptyString => fun s => Py.not_ s
  | String p pattern' =>
      if Ascii.eqb p "%" then
        fix any_run (s : string) : bool :=
          like_match pattern' s
          || match s with
             | EmptyString => false
             | String _ s' => any_run s'
             end
      else if Ascii.eqb p "_" then
        fun s =>
          match s with
          | EmptyString => false
          | String _ s' => like_match pattern' s'
          end
      else
        fun s =>
          match s with
          | EmptyString => false
          | String c s' =>
              Ascii.eqb (fold_case p) (fold_case c) && like_match pattern' s'
          end
  end.

(** SQLite reads a pattern, and a text, up to its first NUL. *)
Fixpoint until_nul (s : string) : string :=
  match s with
  | EmptyString => EmptyString
  | String c s' =>
      if (Py.ord c =? 0)%N then EmptyString else String c (until_nul s')
  end.

(** The largest number of bytes SQLite accepts in a LIKE pattern. *)
Definition max_like_pattern_length : N := 50000.

(** [text LIKE pattern], evaluated on a row: SQLite refuses a pattern of
    more bytes than the limit (the query then fails with an
    [OperationalError]), and matches the others as far as they are
    read. *)
Definition like (pattern text : string) : option bool :=
  if (max_like_pattern_length <? Py.utf8_length pattern)%N then None
  else Some (like_match (until_nul pattern) (until_nul text)).

(** [query.filter(condition)]: the condition is evaluated row by row, and
    an error on a row ends the query; a table without rows evaluates
    nothing. *)
Fixpoint filter_by (condition : Analysis -> option bool)
  (rows : list Analysis) : option (list Analysis) :=
  match rows with
  | [] => Some []
  | r :: rows' =>
      match condition r with
      | None => None
      | Some b =>
          match filter_by condition rows' with
          | None => None
          | Some kept => Some (if b then r :: kept else kept)
          end
      end
  end.

(** [ORDER BY created_at DESC]. SQL leaves the order of rows with equal
    [created_at] open; here the row inserted last comes first. *)
Fixpoint insert_recent (r : Analysis) (l : list Analysis) : list Analysis :=
  match l with
  | [] => [r]
  | r' :: l' =>
      if (created_at r' <=? created_at r)%Z then r :: r' :: l'
      else r' :: insert_recent r l'
  end.

Definition order_by_created_at_desc (rows : list Analysis) : list Analysis :=
  foldl (fun acc r => insert_recent r acc) [] rows.

End Db.

(** ** app/models.py *)

Module Models.

Record AnalyzeRequest := { text : string }.

(** [Field(..., min_length=1)]: the schema layer lets a body through
    only when its text has at least one character. *)
Definition validate (body_text : string) : option AnalyzeRequest :=
  if (1 <=? String.length body_text)%nat
  then Some {| text := body_text |} else None.

Record AnalysisResponse := {
  id : Z;
  summary : string;
  title : option string;
  topics : list string;
  sentiment : string;
  keywords : list string;
  confidence : float;
  created_at : Z
}.

Record SearchResponse := {
  results : list AnalysisResponse;
  count : nat
}.

End Models.

(** ** app/main.py *)

Module Api.

(** The outcome of a request to [/analyze]: the 201 response with its
    body, or an error response. *)
Inductive Response :=
| Created (body : Models.AnalysisResponse)
| HTTPException (status_code : Z) (detail : string).

Definition status_code_of (r : Response) : Z :=
  match r with
  | Created _ => 201
  | HTTPException status_code _ => status_code
  end.

(** What one request meets outside the handler: the spaCy pipeline, the
    module's analyzer (absent until [configure_dspy] has run), the clock
    read when the row is inserted, whether the engine refuses the commit,
    and whether it refuses the refresh that follows a commit. *)
Record World := {
  nlp : Nlp.Pipeline;
  _analyzer : option Llm.TextAnalyzer;
  utcnow : Z;
  engine_error : option Exc;
  refresh_error : option Exc
}.

(** The body of a handler runs on the session [db]; an exception leaves
    the session as it is at that point. *)
Definition M (A : Type) : Type := Db.Session -> Db.Session * result A.

#[global] Instance M_ret : MRet M := fun A a db => (db, Ok a).
#[global] Instance M_bind : MBind M := fun A B f m db =>
  match m db with
  | (db', Ok a) => f a db'
  | (db', Raise e) => (db', Raise e)
  end.

Definition pure {A} (r : result A) : M A := fun db => (db, r).
Definition db_add (a : Db.Analysis) : M unit := fun db => (Db.add a db, Ok tt).
Definition db_commit (w : World) : M unit :=
  fun db => Db.commit (engine_error w) (utcnow w) db.
Definition db_refresh (w : World) : M Db.Analysis :=
  fun db => (db, Db.refresh (refresh_error w) db).

(** The [try] block of [analyze]. *)
Definition analyze_try (w : World) (request : Models.AnalyzeRequest)
  : M Models.AnalysisResponse :=
  keywords ← pure (Nlp.extract_keywords (nlp w) (Models.text request) 3);
  metadata ← pure (Llm.analyze_text (_analyzer w) (Models.text request));
  let analysis :=
    {| Db.id := 0; Db.raw_text := Models.text request;
       Db.summary := Llm.summary metadata;
       Db.title := Llm.title metadata;
       Db.topics := Json.dumps (Llm.topics metadata);
       Db.sentiment := Llm.sentiment metadata;
       Db.keywords := Json.dumps keywords;
       Db.confidence := str_ (Llm.confidence metadata);
       Db.created_at := 0 |} in
  _ ← db_add analysis;
  _ ← db_commit w;
  analysis ← db_refresh w;
  mret {| Models.id := Db.id analysis;
          Models.summary := Db.summary analysis;
          Models.title := Db.title analysis;
          Models.topics := Json.loads (Db.topics analysis);
          Models.sentiment := Db.sentiment analysis;
          Models.keywords := Json.loads (Db.keywords analysis);
          Models.confidence := float_ (Db.confidence analysis);
          Models.created_at := Db.created_at analysis |}.

(** The [except] clauses of [analyze]. *)
Definition on_exception (e : Exc) : Response :=
  match exc_class e with
  | ValueError => HTTPException 400 (exc_str e)
  | RuntimeError =>
      HTTPException 503 ("Service temporarily unavailable: " +:+ exc_str e)
  | Exception => HTTPException 503 ("Internal error: " +:+ exc_str e)
  end.

(** The handler of [POST /analyze], from the table before the request to
    the response and the table after it. *)
Definition analyze (w : World) (request : Models.AnalyzeRequest)
  (t : Db.Table) : Response * Db.Table :=
  let '(db, r) := analyze_try w request (Db.get_db t) in
  (match r with
   | Ok body => Created body
   | Raise e => on_exception e
   end, Db.close db).

(** [POST /analyze] with the schema layer in front of the handler. *)
Definition post_analyze (w : World) (body_text : string) (t : Db.Table)
  : Response * Db.Table :=
  match Models.validate body_text with
  | None => (HTTPException 422 "String should have at least 1 character", t)
  | Some request => analyze w request t
  end.

Definition to_response (r : Db.Analysis) : Models.AnalysisResponse :=
  {| Models.id := Db.id r;
     Models.summary := Db.summary r;
     Models.title := Db.title r;
     Models.topics := Json.loads (Db.topics r);
     Models.sentiment := Db.sentiment r;
     Models.keywords := Json.loads (Db.keywords r);
     Models.confidence := float_ (Db.confidence r);
     Models.created_at := Db.created_at r |}.

(** The filter of [search]: LIKE on the text of either column. *)
Definition matches (search_term : string) (r : Db.Analysis) : option bool :=
  match Db.like search_term (Json.text (Db.topics r)) with
  | None => None
  | Some in_topics =>
      match Db.like search_term (Json.text (Db.keywords r)) with
      | None => None
      | Some in_keywords => Some (in_topics || in_keywords)
      end
  end.

(** The rows the query of [search] returns, or no answer when the engine
    refuses the query. *)
Definition search_rows (topic : option string) (t : Db.Table)
  : option (list Db.Analysis) :=
  let query := Some t in
  let query :=
    match topic with
    | None => query
    | Some topic =>
        if Py.not_ topic then query
        else
          let search_term := "%" +:+ Py.lower topic +:+ "%" in
          Db.filter_by (matches search_term) t
    end in
  match query with
  | None => None
  | Some rows => Some (Db.order_by_created_at_desc rows)
  end.

(** The handler of [GET /search]. It catches no exception: where the
    engine refuses the query there is no response of the handler, and the
    framework answers with status 500. *)
Definition search (topic : option string) (t : Db.Table)
  : option Models.SearchResponse :=
  match search_rows topic t with
  | None => None
  | Some results =>
      let response_list := map to_response results in
      Some {| Models.results := response_list;
              Models.count := length response_list |}
  end.

End Api.


(** * Vocabulary of the properties *)

(** ** Keyword extraction *)

Module NlpSpec.
Import Nlp.

(** A token qualifies as a keyword: it is a common or proper noun, not a
    stop word, not punctuation, longer than two characters and purely
    alphabetic. *)
Definition qualifies (token : Token) : Prop :=
  (pos_ token = "NOUN" ∨ pos_ token = "PROPN")
  ∧ is_stop token = false
  ∧ is_punct token = false
  ∧ (2 < String.length (text token))%nat
  ∧ is_alpha token = true.

#[global] Instance qualifies_dec token : Decision (qualifies token).
Proof. unfold qualifies. apply _. Defined.

(** [c[key]]: the count of [key], zero when it was never counted. *)
Fixpoint get (c : CounterT) (key : string) : nat :=
  match c with
  | [] => 0%nat
  | (k, n) :: c' => if String.eqb k key then n else get c' key
  end.

(** How often [x] occurs in [l], and where it occurs first. *)
Fixpoint occurrences (x : string) (l : list string) : nat :=
  match l with
  | [] => 0%nat
  | y :: l' => ((if String.eqb y x then 1 else 0) + occurrences x l')%nat
  end.

Fixpoint first_seen (x : string) (l : list string) : nat :=
  match l with
  | [] => 0%nat
  | y :: l' => if String.eqb y x then 0%nat else S (first_seen x l')
  end.

(** [a] ranks before [b] in the stream [nouns]: it is strictly more
    frequent, or as frequent and first seen earlier. *)
Definition ranks_before (nouns : list string) (a b : string) : Prop :=
  (occurrences b nouns < occurrences a nouns)%nat
  ∨ (occurrences a nouns = occurrences b nouns
     ∧ (first_seen a nouns < first_seen b nouns)%nat).

(** The same order on the items of a counter, the order of the keys being
    given by [before]. *)
Definition item_before (before : relation string) : relation (string * nat) :=
  λ x y, (snd y < snd x)%nat ∨ (snd x = snd y ∧ before (fst x) (fst y)).

(** The lemmas of the qualifying tokens of [text], in the order of the
    document; none when the text is blank or the pipeline raises. *)
Definition counted_lemmas (nlp : Pipeline) (text : string) : list string :=
  if Py.all_space text then []
  else match nlp (Py.lower text) with
       | Ok doc => lemma_ <$> filter qualifies doc
       | Raise _ => []
       end.

End NlpSpec.

(** ** The analyze flow *)

Module ApiSpec.

(** A sequence of requests to [/analyze], each with the world it meets,
    served one after the other. *)
Fixpoint serve (requests : list (Api.World * Models.AnalyzeRequest))
  (t : Db.Table) : Db.Table :=
  match requests with
  | [] => t
  | (w, request) :: requests' => serve requests' (Api.analyze w request t).2
  end.

(** The contract the prompt asks of the model: three topics, one of the
    three sentiments, a confidence between 0 and 1. *)
Definition in_contract (topics : list string) (sentiment : string)
  (confidence : float) : Prop :=
  length topics = 3%nat
  ∧ (sentiment = "positive" ∨ sentiment = "neutral" ∨ sentiment = "negative")
  ∧ PrimFloat.leb 0 confidence = true
  ∧ PrimFloat.leb confidence 1 = true.

(** The test by which [analyze_text] takes an exception for a failure of
    the model's API, on the text of the exception. *)
Definition looks_like_api_error (message : string) : bool :=
  Py.contains "API" message || Py.contains "rate" (Py.lower message).

(** The object the handler adds to the session. *)
Definition new_analysis (request : Models.AnalyzeRequest)
  (keywords : list string) (metadata : Llm.ExtractedMetadata) : Db.Analysis :=
  {| Db.id := 0; Db.raw_text := Models.text request;
     Db.summary := Llm.summary metadata;
     Db.title := Llm.title metadata;
     Db.topics := Json.dumps (Llm.topics metadata);
     Db.sentiment := Llm.sentiment metadata;
     Db.keywords := Json.dumps keywords;
     Db.confidence := str_ (Llm.confidence metadata);
     Db.created_at := 0 |}.

End ApiSpec.

(** ** The search flow *)

Module SearchSpec.

(** [needle] occurs in [hay] when case is ignored. *)
Definition contains_ci (hay needle : string) : bool :=
  Py.contains (Py.lower needle) (Py.lower hay).

(** The row mentions [topic]: the text of its topics or of its keywords
    contains it, case ignored. *)
Definition mentions (topic : string) (r : Db.Analysis) : bool :=
  contains_ci (Json.text (Db.topics r)) topic
  || contains_ci (Json.text (Db.keywords r)) topic.









End SearchSpec.

(** ** Concrete requests *)

Module Scenario.

Definition noun (lemma : string) : Nlp.Token :=
  {| Nlp.text := lemma; Nlp.lemma_ := lemma; Nlp.pos_ := "NOUN";
     Nlp.is_stop := false; Nlp.is_punct := false; Nlp.is_alpha := true |}.

Definition verb (lemma : string) : Nlp.Token :=
  {| Nlp.text := lemma; Nlp.lemma_ := lemma; Nlp.pos_ := "VERB";
     Nlp.is_stop := false; Nlp.is_punct := false; Nlp.is_alpha := true |}.

Definition doc : list Nlp.Token :=
  [noun "zebra"; verb "eat"; noun "apple"; noun "zebra"; verb "like";
   noun "apple"; noun "mango"].

Definition pipeline : Nlp.Pipeline := fun _ => Ok doc.

Definition text : string := "Zebras eat apples. Zebras like apples, mangos.".

Definition request : Models.AnalyzeRequest := {| Models.text := text |}.

Definition world (analyzer : option Llm.TextAnalyzer) : Api.World :=
  {| Api.nlp := pipeline; Api._analyzer := analyzer;
     Api.utcnow := 1700000000; Api.engine_error := None;
     Api.refresh_error := None |}.


(** The model answers with text that is not JSON: [json.loads] stops at
    the first character. *)
Definition not_json : Llm.TextAnalyzer :=
  fun _ => Llm.NotJson "Expecting value: line 1 column 1 (char 0)".

(** The model answers with an object of the right types whose values are
    not those the prompt asks for. *)
Definition off_contract : Llm.TextAnalyzer :=
  fun _ => Llm.Valid
    {| Llm.summary := "Zebras prefer apples.";
       Llm.title := None;
       Llm.topics := ["zebras"; "fruit"];
       Llm.sentiment := "mixed";
       Llm.confidence := 1.5%float |}.

Definition on_contract : Llm.TextAnalyzer :=
  fun _ => Llm.Valid
    {| Llm.summary := "Zebras prefer apples.";
       Llm.title := Some "Zebras";
       Llm.topics := ["animal diet"; "zebras"; "fruit"];
       Llm.sentiment := "neutral";
       Llm.confidence := 0.75%float |}.

(** The table after one successful request. *)
Definition table : Db.Table :=
  (Api.analyze (world (Some on_contract)) request []).2.

End Scenario.


(** ** Topics, clocks and the quality script *)

Module TopicSpec.




(** Some character of [s] is outside ASCII. *)
Fixpoint has_non_ascii (s : string) : bool :=
  match s with
  | EmptyString => false
  | String c s' => (128 <=? Py.ord c)%N || has_non_ascii s'
  end.



End TopicSpec.

(** ** evals/eval_llm_quality.py *)

Module Evals.

Record TestCase := {
  name : string;
  text : string;
  expected_sentiment : string;
  expected_topics : list string
}.

(** What the [try] block of one test case comes to: an exception (from
    [requests.post], from printing the result or from reading the body),
    or a response, of which the loop reads the status code and, when the
    status is 201, the sentiment of the body. *)
Inductive Attempt :=
| Raised
| Responded (status_code : Z) (sentiment : string).

Record Result := {
  result_name : string;
  success : bool;
  sentiment_match : bool
}.

(** The body of the loop: the entry appended to [results]. *)
Definition run_one (test_case : TestCase) (attempt : Attempt) : Result :=
  match attempt with
  | Responded status_code sentiment =>
      if (status_code =? 201)%Z then
        {| result_name := name test_case; success := true;
           sentiment_match :=
             String.eqb sentiment (expected_sentiment test_case) |}
      else
        {| result_name := name test_case; success := false;
           sentiment_match := false |}
  | Raised =>
      {| result_name := name test_case; success := false;
         sentiment_match := false |}
  end.

(** The loop over the test cases, each with what its request meets. *)
Definition run_quality_tests (cases : list (TestCase * Attempt))
  : list Result :=
  (λ p, run_one p.1 p.2) <$> cases.

(** The three numbers of the summary. *)
Definition total (results : list Result) : nat := length results.

Definition successful (results : list Result) : nat :=
  length (List.filter success results).

Definition sentiment_correct (results : list Result) : nat :=
  length (List.filter sentiment_match results).

End Evals.


(** * Properties *)

Import Nlp NlpSpec ApiSpec SearchSpec.

(** ** Blank text *)

Section strip_facts.

Lemma rstrip_empty s : Py.not_ (Py.rstrip s) = Py.all_space s.
Proof.
  induction s as [|c s IH]; cbn; [done|].
  destruct (Py.rstrip s); cbn in *; rewrite <-IH.
  - destruct (Py.isspace c); done.
  - by rewrite andb_false_r.
Qed.

Lemma all_space_lstrip s : Py.all_space (Py.lstrip s) = Py.all_space s.
Proof.
  induction s as [|c s IH]; cbn; [done|].
  destruct (Py.isspace c) eqn:E; cbn; [done|]. by rewrite E.
Qed.

(** The guard [not text or not text.strip()] holds exactly of the texts
    made of white space only, the empty text among them. *)
Lemma blank_all_space s :
  Py.not_ s || Py.not_ (Py.strip s) = Py.all_space s.
Proof.
  unfold Py.strip. rewrite rstrip_empty, all_space_lstrip.
  by destruct s.
Qed.

End strip_facts.

(** ** The filter *)

Lemma is_keyword_qualifies token : is_keyword token = true ↔ qualifies token.
Proof.
  unfold is_keyword, qualifies.
  rewrite !andb_true_iff, orb_true_iff, !negb_true_iff, !String.eqb_eq,
    Nat.ltb_lt.
  tauto.
Qed.

Lemma nouns_of_filter doc : nouns_of doc = lemma_ <$> filter qualifies doc.
Proof.
  induction doc as [|token doc IH]; [done|].
  cbn [nouns_of]. rewrite filter_cons.
  destruct (is_keyword token) eqn:E.
  - apply is_keyword_qualifies in E. rewrite decide_True by done.
    cbn. by f_equal.
  - rewrite decide_False; [done|]. intros H%is_keyword_qualifies. congruence.
Qed.

(** ** The counter *)

Section counter_facts.
Implicit Types (c : CounterT) (l : list string) (k x : string).

Lemma get_count_one c x k :
  get (count_one c x) k = (get c k + if String.eqb x k then 1 else 0)%nat.
Proof.
  induction c as [|[k' n] c IH]; cbn.
  - destruct (String.eqb x k); lia.
  - destruct (String.eqb k' x) eqn:E1; cbn.
    + apply String.eqb_eq in E1 as ->.
      destruct (String.eqb x k); lia.
    + destruct (String.eqb k' k) eqn:E2; [|done].
      apply String.eqb_eq in E2 as ->. rewrite String.eqb_sym, E1. lia.
Qed.

Lemma get_foldl c l k :
  get (foldl count_one c l) k = (get c k + occurrences k l)%nat.
Proof.
  revert c; induction l as [|x l IH]; intros c; cbn; [lia|].
  rewrite IH, get_count_one. lia.
Qed.

Lemma get_Counter l k : get (Counter l) k = occurrences k l.
Proof. unfold Counter. by rewrite get_foldl. Qed.

Lemma keys_count_one c x :
  (count_one c x).*1 = if decide (x ∈ c.*1) then c.*1 else c.*1 ++ [x].
Proof.
  induction c as [|[k n] c IH]; cbn.
  - by rewrite decide_False by apply not_elem_of_nil.
  - destruct (String.eqb k x) eqn:E; cbn.
    + apply String.eqb_eq in E as ->. by rewrite decide_True by left.
    + apply String.eqb_neq in E. rewrite IH.
      destruct (decide (x ∈ c.*1)).
      * by rewrite decide_True by by right.
      * rewrite decide_False; [done|]. rewrite elem_of_cons. by intros [?|?].
Qed.

Lemma get_elem_of c k n : NoDup c.*1 → (k, n) ∈ c → get c k = n.
Proof.
  induction c as [|[k' n'] c IH]; cbn; intros Hnd Hin.
  - by apply elem_of_nil in Hin.
  - apply NoDup_cons in Hnd as [Hk' Hnd].
    apply elem_of_cons in Hin as [[= -> ->]|Hin].
    + by rewrite String.eqb_refl.
    + destruct (String.eqb k' k) eqn:E; [|by apply IH].
      apply String.eqb_eq in E as ->. destruct Hk'.
      apply (list_elem_of_fmap_2 fst) in Hin. done.
Qed.

Lemma first_seen_lt k l : k ∈ l → (first_seen k l < length l)%nat.
Proof.
  induction l as [|y l IH]; cbn; [by intros ?%elem_of_nil|].
  intros Hin. destruct (String.eqb y k) eqn:E; [lia|].
  apply String.eqb_neq in E. apply elem_of_cons in Hin as [->|Hin]; [done|].
  apply IH in Hin. lia.
Qed.

Lemma first_seen_app_l k l l' :
  k ∈ l → first_seen k (l ++ l') = first_seen k l.
Proof.
  induction l as [|y l IH]; cbn; [by intros ?%elem_of_nil|].
  intros Hin. destruct (String.eqb y k) eqn:E; [done|].
  apply String.eqb_neq in E. apply elem_of_cons in Hin as [->|Hin]; [done|].
  by rewrite IH.
Qed.

Lemma first_seen_app_r k l l' :
  k ∉ l → first_seen k (l ++ l') = (length l + first_seen k l')%nat.
Proof.
  induction l as [|y l IH]; cbn; [done|].
  intros Hin. apply not_elem_of_cons in Hin as [Hne Hin].
  destruct (String.eqb y k) eqn:E.
  - apply String.eqb_eq in E. congruence.
  - by rewrite IH.
Qed.

Lemma StronglySorted_impl_elem {A} (R R' : relation A) (l : list A) :
  (∀ a b, a ∈ l → b ∈ l → R a b → R' a b) →
  StronglySorted R l → StronglySorted R' l.
Proof.
  induction l as [|a l IH]; intros HR Hs; [constructor|].
  apply StronglySorted_inv in Hs as [Hs Hall].
  constructor.
  - apply IH; [|done]. intros ????; apply HR; by right.
  - rewrite Forall_forall in Hall |- *. intros b Hb.
    apply HR; [by left|by right|by apply Hall].
Qed.

Lemma StronglySorted_lookup {A} (R : relation A) (l : list A) i j a b :
  StronglySorted R l → (i < j)%nat → l !! i = Some a → l !! j = Some b →
  R a b.
Proof.
  intros Hs Hij Hi Hj. rewrite <-(take_drop j l) in Hs.
  eapply StronglySorted_app_1_elem_of; [done| |].
  - apply list_elem_of_lookup. exists i. by rewrite lookup_take_lt.
  - apply list_elem_of_lookup. exists 0%nat.
    by rewrite lookup_drop, Nat.add_0_r.
Qed.

(** The keys of a counter are the distinct elements of the counted list,
    in the order in which they were first seen. *)
Lemma Counter_keys l :
  NoDup (Counter l).*1
  ∧ (∀ k, k ∈ (Counter l).*1 ↔ k ∈ l)
  ∧ StronglySorted (λ a b, first_seen a l < first_seen b l)%nat
      (Counter l).*1.
Proof.
  induction l as [|x l (Hnd & Hin & Hs)] using rev_ind.
  - cbn. split_and!; [constructor| done |constructor].
  - unfold Counter in *. rewrite foldl_snoc, keys_count_one.
    set (c := foldl count_one [] l) in *.
    destruct (decide (x ∈ c.*1)) as [Hx|Hx].
    + split_and!; [done| |].
      * intros k. rewrite elem_of_app, list_elem_of_singleton, Hin.
        split; [by left|]. intros [?| ->]; [done|]. by apply Hin.
      * eapply StronglySorted_impl_elem; [|done].
        intros a b Ha%Hin Hb%Hin. by rewrite !first_seen_app_l.
    + split_and!.
      * apply NoDup_app. split_and!; [done| |apply NoDup_singleton].
        intros k Hk ->%list_elem_of_singleton. done.
      * intros k. by rewrite !elem_of_app, Hin.
      * apply StronglySorted_app_2.
        -- intros a b Ha%Hin ->%list_elem_of_singleton.
           rewrite first_seen_app_l, first_seen_app_r
             by (done || by rewrite <-Hin).
           apply first_seen_lt in Ha. lia.
        -- eapply StronglySorted_impl_elem; [|done].
           intros a b Ha%Hin Hb%Hin. by rewrite !first_seen_app_l.
        -- repeat constructor.
Qed.

(** Each item of a counter carries the number of occurrences of its key. *)
Lemma Counter_elem_of l k n : (k, n) ∈ Counter l → n = occurrences k l.
Proof.
  intros Hin. rewrite <-get_Counter. symmetry.
  apply get_elem_of; [apply Counter_keys|done].
Qed.

End counter_facts.

(** ** The sort *)

Section sort_facts.
Implicit Types (x y : string * nat) (l : CounterT).

Lemma insert_desc_Permutation x l : insert_desc x l ≡ₚ x :: l.
Proof.
  induction l as [|y l IH]; cbn; [done|].
  destruct (snd y <=? snd x)%nat; [done|].
  rewrite IH. apply Permutation_swap.
Qed.

Lemma sorted_desc_Permutation l : sorted_desc l ≡ₚ l.
Proof.
  induction l as [|x l IH]; cbn; [done|].
  unfold sorted_desc in IH. by rewrite insert_desc_Permutation, IH.
Qed.

(** Inserting an item whose key comes before the keys of a sorted list
    keeps the list sorted: the item stops in front of the first item that
    is not more frequent. *)
Lemma insert_desc_sorted before x l :
  Forall (λ y, before (fst x) (fst y)) l →
  StronglySorted (item_before before) l →
  StronglySorted (item_before before) (insert_desc x l).
Proof.
  induction l as [|y l IH]; cbn; intros Hx Hs.
  - repeat constructor.
  - apply Forall_cons in Hx as [Hxy Hx].
    apply StronglySorted_inv in Hs as [Hs Hy].
    destruct (snd y <=? snd x)%nat eqn:E.
    + apply Nat.leb_le in E. constructor; [by constructor|].
      constructor.
      * unfold item_before.
        destruct (decide (snd y = snd x)); [right|left]; [done|lia].
      * rewrite Forall_forall in Hx, Hy |- *. intros z Hz.
        specialize (Hx z Hz). specialize (Hy z Hz).
        unfold item_before in *. destruct Hy as [?|[? ?]];
          (destruct (decide (snd z = snd x)); [right|left]);
          (split || lia); (done || lia).
    + apply Nat.leb_gt in E. constructor; [by apply IH|].
      rewrite insert_desc_Permutation. constructor; [|done]. by left.
Qed.

(** The sort is stable: items given in the order [before] come out by
    falling count, and in the order [before] where the counts agree. *)
Lemma sorted_desc_sorted before l :
  StronglySorted (λ x y, before (fst x) (fst y)) l →
  StronglySorted (item_before before) (sorted_desc l).
Proof.
  induction l as [|x l IH]; cbn; intros Hs; [constructor|].
  apply StronglySorted_inv in Hs as [Hs Hx].
  apply insert_desc_sorted; [|by apply IH].
  fold (sorted_desc l). by rewrite sorted_desc_Permutation.
Qed.

End sort_facts.

(** The keys of the sorted items of a counter: the distinct elements of
    the counted list, each once, in rank order. *)
Lemma ranking_spec (nouns : list string) :
  let ranking := (sorted_desc (Counter nouns)).*1 in
  NoDup ranking
  ∧ (∀ k, k ∈ ranking ↔ k ∈ nouns)
  ∧ StronglySorted (ranks_before nouns) ranking.
Proof.
  destruct (Counter_keys nouns) as (Hnd & Hin & Hs).
  cbn. split_and!.
  - by rewrite sorted_desc_Permutation.
  - intros k. by rewrite sorted_desc_Permutation.
  - apply (StronglySorted_fmap fst
      (λ x y, x ∈ Counter nouns ∧ y ∈ Counter nouns ∧
        item_before (λ a b, first_seen a nouns < first_seen b nouns)%nat x y)).
    + intros [a n] [b m] (Ha%Counter_elem_of & Hb%Counter_elem_of & H).
      unfold item_before, ranks_before in *; cbn in *. by subst.
    + eapply (StronglySorted_impl_elem (item_before _)).
      * intros x y Hx Hy H. rewrite sorted_desc_Permutation in Hx, Hy. eauto.
      * apply sorted_desc_sorted.
        clear -Hs. induction (Counter nouns) as [|x c IH]; [constructor|].
        cbn in Hs. apply StronglySorted_inv in Hs as [Hs Hx].
        constructor; [by apply IH|].
        rewrite Forall_fmap in Hx. done.
Qed.

(** ** extract_keywords *)

(** On a text that is not blank and that the pipeline tokenizes, the
    function returns: the first [top_n] keys of the sorted counter. *)
Lemma extract_keywords_unfold nlp text top_n doc :
  Py.all_space text = false → nlp (Py.lower text) = Ok doc →
  extract_keywords nlp text top_n
  = Ok (take (Z.to_nat top_n) (sorted_desc (Counter (nouns_of doc))).*1).
Proof.
  intros Hb Hdoc. unfold extract_keywords.
  rewrite blank_all_space, Hb, Hdoc. cbn.
  destruct (nouns_of doc) as [|x nouns]; [by destruct (Z.to_nat top_n)|].
  unfold most_common. by rewrite fmap_take.
Qed.

Lemma extract_keywords_cases nlp text top_n kws :
  extract_keywords nlp text top_n = Ok kws →
  kws = take (Z.to_nat top_n)
          (sorted_desc (Counter (counted_lemmas nlp text))).*1.
Proof.
  unfold counted_lemmas. destruct (Py.all_space text) eqn:Hb.
  - unfold extract_keywords. rewrite blank_all_space, Hb. intros [= <-].
    by destruct (Z.to_nat top_n).
  - destruct (nlp (Py.lower text)) as [doc|e] eqn:Hdoc.
    + rewrite (extract_keywords_unfold _ _ _ doc), nouns_of_filter by done.
      by intros [= <-].
    + unfold extract_keywords. by rewrite blank_all_space, Hb, Hdoc.
Qed.

(** The function raises only when the pipeline does. *)
Lemma extract_keywords_raises nlp text top_n e :
  extract_keywords nlp text top_n = Raise e →
  Py.all_space text = false ∧ nlp (Py.lower text) = Raise e.
Proof.
  unfold extract_keywords. rewrite blank_all_space.
  destruct (Py.all_space text); [done|].
  destruct (nlp (Py.lower text)) as [doc|e'] eqn:Hdoc; cbn.
  - by destruct (nouns_of doc).
  - by intros [= ->].
Qed.

(** C3. For every text and every [top_n], the keywords [extract_keywords]
    returns are in rank order with respect to the stream of counted
    lemmas: of two returned keywords the earlier one is strictly more
    frequent, or as frequent and first seen earlier in the stream (the
    alphabet plays no part). The returned keywords are lemmas of the
    stream, and each of them ranks before every lemma left out. *)
Theorem extract_keywords_order nlp text top_n kws :
  extract_keywords nlp text top_n = Ok kws →
  let nouns := counted_lemmas nlp text in
  (∀ i j a b, (i < j)%nat → kws !! i = Some a → kws !! j = Some b →
     ranks_before nouns a b)
  ∧ (∀ a b, a ∈ kws → b ∈ nouns → b ∉ kws → ranks_before nouns a b)
  ∧ (∀ a, a ∈ kws → a ∈ nouns).
Proof.
  intros ->%extract_keywords_cases nouns.
  destruct (ranking_spec nouns) as (Hnd & Hin & Hs). cbn in Hnd, Hin, Hs.
  set (ranking := (sorted_desc (Counter nouns)).*1) in *.
  set (n := Z.to_nat top_n).
  rewrite <-(take_drop n ranking) in Hs, Hin.
  split_and!.
  - intros i j a b. apply StronglySorted_lookup.
    by apply StronglySorted_app_1_l in Hs.
  - intros a b Ha Hb Hnb. apply Hin, elem_of_app in Hb as [?|Hb]; [done|].
    by eapply StronglySorted_app_1_elem_of.
  - intros a Ha. apply Hin, elem_of_app. by left.
Qed.

(** Zebra and apple both occur twice; zebra was seen first and comes
    first. *)
Lemma extract_keywords_order_witness :
  extract_keywords Scenario.pipeline Scenario.text 3
  = Ok ["zebra"; "apple"; "mango"]
  ∧ ranks_before (counted_lemmas Scenario.pipeline Scenario.text)
      "zebra" "apple"
  ∧ ranks_before (counted_lemmas Scenario.pipeline Scenario.text)
      "apple" "mango".
Proof.
  assert (extract_keywords Scenario.pipeline Scenario.text 3
          = Ok ["zebra"; "apple"; "mango"]) as H by reflexivity.
  destruct (extract_keywords_order _ _ _ _ H) as (Hord & _ & _).
  split; [exact H|].
  split; [apply (Hord 0 1)%nat|apply (Hord 1 2)%nat];
    first [apply le_n|reflexivity].
Defined.

(** The example of the docstring: cat twice, mat once, two keywords. *)
Example extract_keywords_docstring :
  extract_keywords
    (fun _ => Ok [Scenario.noun "cat"; Scenario.verb "sit"; Scenario.noun "mat";
                  Scenario.noun "cat"; Scenario.verb "run"])
    "The cat sat on the mat. The cat ran." 2
  = Ok ["cat"; "mat"].
Proof. reflexivity. Qed.

(** C10. For every text and every [top_n], no lemma occurs twice among the
    keywords [extract_keywords] returns. *)
Theorem extract_keywords_NoDup nlp text top_n kws :
  extract_keywords nlp text top_n = Ok kws → NoDup kws.
Proof.
  intros ->%extract_keywords_cases.
  eapply sublist_NoDup; [|apply sublist_take].
  apply ranking_spec.
Qed.

Lemma extract_keywords_NoDup_witness :
  extract_keywords Scenario.pipeline Scenario.text 2 = Ok ["zebra"; "apple"]
  ∧ NoDup ["zebra"; "apple"].
Proof.
  split; [reflexivity|].
  apply (extract_keywords_NoDup Scenario.pipeline Scenario.text 2).
  reflexivity.
Defined.

(** C7. For every empty or white-space-only text and every [top_n],
    [extract_keywords] returns the empty list; it does not raise, and the
    pipeline is not consulted. *)
Theorem extract_keywords_blank nlp text top_n :
  Py.all_space text = true → extract_keywords nlp text top_n = Ok [].
Proof.
  intros Hb. unfold extract_keywords. by rewrite blank_all_space, Hb.
Qed.

Lemma extract_keywords_blank_witness :
  Py.all_space "   " = true
  ∧ extract_keywords Scenario.pipeline "   " 3 = Ok []
  ∧ extract_keywords (fun _ => Raise (raise_ Exception "unused")) "" 3 = Ok [].
Proof.
  split; [reflexivity|].
  split; apply extract_keywords_blank; reflexivity.
Defined.

(** C4. For every document the pipeline produces for the lower-cased
    text, [extract_keywords] answers from the counter of [nouns_of], and
    that counter holds, for each lemma, the number of tokens of the
    document that carry the lemma and qualify: common or proper noun, not
    a stop word, not punctuation, longer than two characters, purely
    alphabetic. A token adds to the count of its lemma if and only if it
    qualifies. *)
Theorem extract_keywords_counts nlp text top_n doc :
  Py.all_space text = false → nlp (Py.lower text) = Ok doc →
  extract_keywords nlp text top_n
  = Ok (most_common top_n (Counter (nouns_of doc))).*1
  ∧ (∀ token, is_keyword token = true ↔ qualifies token)
  ∧ nouns_of doc = lemma_ <$> filter qualifies doc
  ∧ ∀ l, get (Counter (nouns_of doc)) l
         = length (filter (λ token, qualifies token ∧ lemma_ token = l) doc).
Proof.
  intros Hb Hdoc. split_and!.
  - rewrite (extract_keywords_unfold _ _ _ doc) by done.
    unfold most_common. by rewrite fmap_take.
  - apply is_keyword_qualifies.
  - apply nouns_of_filter.
  - intros l. rewrite get_Counter. clear.
    induction doc as [|token doc IH]; [done|].
    cbn [nouns_of]. rewrite filter_cons.
    destruct (is_keyword token) eqn:E.
    + apply is_keyword_qualifies in E. cbn [occurrences]. rewrite IH.
      destruct (String.eqb (lemma_ token) l) eqn:El.
      * apply String.eqb_eq in El. by rewrite decide_True.
      * apply String.eqb_neq in El. rewrite decide_False; [done|]. tauto.
    + rewrite decide_False; [done|].
      intros [H%is_keyword_qualifies _]. congruence.
Qed.

Lemma extract_keywords_counts_witness :
  Py.all_space Scenario.text = false
  ∧ Scenario.pipeline (Py.lower Scenario.text) = Ok Scenario.doc
  ∧ get (Counter (nouns_of Scenario.doc)) "zebra" = 2%nat
  ∧ get (Counter (nouns_of Scenario.doc)) "eat" = 0%nat.
Proof.
  split; [reflexivity|]. split; [reflexivity|].
  destruct (extract_keywords_counts Scenario.pipeline Scenario.text 3
              Scenario.doc eq_refl eq_refl) as (_ & _ & _ & H).
  split; rewrite H; reflexivity.
Defined.

(** ** The analyze handler *)

Section analyze_facts.
Context (w : Api.World) (request : Models.AnalyzeRequest) (t : Db.Table).

(** The five ways through the [try] block. *)
Lemma analyze_keywords_fail e :
  extract_keywords (Api.nlp w) (Models.text request) 3 = Raise e →
  Api.analyze w request t = (Api.on_exception e, t).
Proof.
  intros H.
  unfold Api.analyze, Api.analyze_try, Api.pure, mbind, Api.M_bind.
  by rewrite H.
Qed.

Lemma analyze_metadata_fail keywords e :
  extract_keywords (Api.nlp w) (Models.text request) 3 = Ok keywords →
  Llm.analyze_text (Api._analyzer w) (Models.text request) = Raise e →
  Api.analyze w request t = (Api.on_exception e, t).
Proof.
  intros H1 H2.
  unfold Api.analyze, Api.analyze_try, Api.pure, mbind, Api.M_bind.
  by rewrite H1, H2.
Qed.

Lemma analyze_commit_fail keywords metadata e :
  extract_keywords (Api.nlp w) (Models.text request) 3 = Ok keywords →
  Llm.analyze_text (Api._analyzer w) (Models.text request) = Ok metadata →
  Api.engine_error w = Some e →
  Api.analyze w request t = (Api.on_exception e, t).
Proof.
  intros H1 H2 H3.
  unfold Api.analyze, Api.analyze_try, Api.pure, Api.db_commit, Db.commit,
    mbind, Api.M_bind.
  by rewrite H1, H2, H3.
Qed.

Lemma analyze_refresh_fail keywords metadata e :
  extract_keywords (Api.nlp w) (Models.text request) 3 = Ok keywords →
  Llm.analyze_text (Api._analyzer w) (Models.text request) = Ok metadata →
  Api.engine_error w = None →
  Api.refresh_error w = Some e →
  Api.analyze w request t
  = (Api.on_exception e,
     t ++ [Db.insert_row (Api.utcnow w) t
             (new_analysis request keywords metadata)]).
Proof.
  intros H1 H2 H3 H4.
  unfold Api.analyze, Api.analyze_try, Api.pure, Api.db_commit, Db.commit,
    Api.db_refresh, Db.refresh, mbind, Api.M_bind.
  by rewrite H1, H2, H3, H4.
Qed.

Lemma analyze_success keywords metadata :
  extract_keywords (Api.nlp w) (Models.text request) 3 = Ok keywords →
  Llm.analyze_text (Api._analyzer w) (Models.text request) = Ok metadata →
  Api.engine_error w = None →
  Api.refresh_error w = None →
  let row := Db.insert_row (Api.utcnow w) t
               (new_analysis request keywords metadata) in
  Api.analyze w request t = (Api.Created (Api.to_response row), t ++ [row]).
Proof.
  intros H1 H2 H3 H4.
  unfold Api.analyze, Api.analyze_try, Api.pure, Api.db_commit, Db.commit,
    Api.db_refresh, Db.refresh, mbind, Api.M_bind.
  by rewrite H1, H2, H3, H4.
Qed.

End analyze_facts.

Lemma on_exception_status e :
  Api.status_code_of (Api.on_exception e) = 400%Z
  ∨ Api.status_code_of (Api.on_exception e) = 503%Z.
Proof. unfold Api.on_exception. destruct (exc_class e); cbn; auto. Qed.

Lemma on_exception_not_created e body : Api.on_exception e ≠ Api.Created body.
Proof. unfold Api.on_exception. by destruct (exc_class e). Qed.

(** Every request ends in an error response with the table as it was, or
    in the 201 response with one row more, or, where the refresh after the
    commit fails, in an error response with the row persisted. *)
Lemma analyze_outcome w request t :
  (∃ e, Api.analyze w request t = (Api.on_exception e, t))
  ∨ (∃ keywords metadata,
       extract_keywords (Api.nlp w) (Models.text request) 3 = Ok keywords
       ∧ Llm.analyze_text (Api._analyzer w) (Models.text request) = Ok metadata
       ∧ Api.engine_error w = None
       ∧ Api.analyze w request t
         = (Api.Created (Api.to_response
              (Db.insert_row (Api.utcnow w) t
                 (new_analysis request keywords metadata))),
            t ++ [Db.insert_row (Api.utcnow w) t
                    (new_analysis request keywords metadata)]))
  ∨ (∃ keywords metadata e,
       extract_keywords (Api.nlp w) (Models.text request) 3 = Ok keywords
       ∧ Llm.analyze_text (Api._analyzer w) (Models.text request) = Ok metadata
       ∧ Api.engine_error w = None
       ∧ Api.refresh_error w = Some e
       ∧ Api.analyze w request t
         = (Api.on_exception e,
            t ++ [Db.insert_row (Api.utcnow w) t
                    (new_analysis request keywords metadata)])).
Proof.
  destruct (extract_keywords (Api.nlp w) (Models.text request) 3)
    as [keywords|e] eqn:H1.
  2: { left. exists e. by apply analyze_keywords_fail. }
  destruct (Llm.analyze_text (Api._analyzer w) (Models.text request))
    as [metadata|e] eqn:H2.
  2: { left. exists e. by eapply analyze_metadata_fail. }
  destruct (Api.engine_error w) as [e|] eqn:H3.
  { left. exists e. by eapply analyze_commit_fail. }
  destruct (Api.refresh_error w) as [e|] eqn:H4.
  { right. right. exists keywords, metadata, e. split_and!; [done..|].
    by apply analyze_refresh_fail. }
  right. left. exists keywords, metadata. split_and!; [done..|].
  by apply analyze_success.
Qed.

Lemma analyze_created_inv w request t body t' :
  Api.analyze w request t = (Api.Created body, t') →
  ∃ keywords metadata,
    extract_keywords (Api.nlp w) (Models.text request) 3 = Ok keywords
    ∧ Llm.analyze_text (Api._analyzer w) (Models.text request) = Ok metadata
    ∧ Api.engine_error w = None
    ∧ body = Api.to_response
               (Db.insert_row (Api.utcnow w) t
                  (new_analysis request keywords metadata))
    ∧ t' = t ++ [Db.insert_row (Api.utcnow w) t
                   (new_analysis request keywords metadata)].
Proof.
  destruct (analyze_outcome w request t)
    as [[e ->]|[(keywords & metadata & H1 & H2 & H3 & ->)
               |(? & ? & e & _ & _ & _ & _ & ->)]].
  - intros [= H _]. by apply on_exception_not_created in H.
  - intros [= <- <-]. eauto 10.
  - intros [= H _]. by apply on_exception_not_created in H.
Qed.

(** C2. For every request to [analyze], when keyword extraction raises,
    or metadata extraction raises, or the engine refuses the commit, the
    table after the request is the table before it and the response is an
    error: no row, whole or partial, is persisted. *)
Theorem analyze_failure_persists_nothing w request t e :
  extract_keywords (Api.nlp w) (Models.text request) 3 = Raise e
  ∨ Llm.analyze_text (Api._analyzer w) (Models.text request) = Raise e
  ∨ Api.engine_error w = Some e →
  (Api.analyze w request t).2 = t
  ∧ Api.status_code_of (Api.analyze w request t).1 ≠ 201%Z.
Proof.
  intros H.
  destruct (analyze_outcome w request t)
    as [[e' ->]|[(keywords & metadata & H1 & H2 & H3 & _)
                |(keywords & metadata & e' & H1 & H2 & H3 & _)]].
  - split; [done|]. cbn. destruct (on_exception_status e') as [-> | ->]; lia.
  - destruct H as [H|[H|H]]; congruence.
  - destruct H as [H|[H|H]]; congruence.
Qed.

Lemma analyze_failure_persists_nothing_witness :
  (Api.analyze (Scenario.world (Some Scenario.not_json)) Scenario.request
     Scenario.table).2 = Scenario.table
  ∧ Api.status_code_of
      (Api.analyze (Scenario.world (Some Scenario.not_json)) Scenario.request
         Scenario.table).1 ≠ 201%Z.
Proof.
  apply (analyze_failure_persists_nothing _ _ _
           (raise_ ValueError
              "Failed to parse LLM response as JSON: Expecting value: line 1 column 1 (char 0)")).
  right; left. reflexivity.
Defined.

(** ** Identifiers *)

Section ids.

Lemma max_id_ge (t : Db.Table) r : r ∈ t → (Db.id r ≤ Db.max_id t)%Z.
Proof.
  unfold Db.max_id.
  induction t as [|r' t IH]; cbn; [by intros ?%elem_of_nil|].
  intros [->|Hin%IH]%elem_of_cons; lia.
Qed.

(** A request leaves the table alone or appends one row, whose identifier
    is above every identifier in the table. *)
Lemma analyze_table w request t :
  (Api.analyze w request t).2 = t
  ∨ ∃ row, (Api.analyze w request t).2 = t ++ [row]
           ∧ Forall (λ r, (Db.id r < Db.id row)%Z) t.
Proof.
  destruct (analyze_outcome w request t)
    as [[e ->]|[(keywords & metadata & _ & _ & _ & ->)
               |(keywords & metadata & e & _ & _ & _ & _ & ->)]]; [by left|..].
  all: right; eexists; split; [done|].
  all: apply Forall_forall; intros r Hr%max_id_ge; cbn; unfold Db.next_id; lia.
Qed.

Lemma analyze_ids_sorted w request t :
  StronglySorted Z.lt (Db.id <$> t) →
  StronglySorted Z.lt (Db.id <$> (Api.analyze w request t).2).
Proof.
  intros Hs.
  destruct (analyze_table w request t) as [->|(row & -> & Hid)]; [done|].
  rewrite fmap_app. apply StronglySorted_app_2; [|done|repeat constructor].
  intros a b (r & -> & Hr)%list_elem_of_fmap Hb. cbn in Hb.
  apply list_elem_of_singleton in Hb as ->.
  rewrite Forall_forall in Hid. by apply Hid.
Qed.

Lemma serve_ids_sorted requests t :
  StronglySorted Z.lt (Db.id <$> t) →
  StronglySorted Z.lt (Db.id <$> serve requests t).
Proof.
  revert t; induction requests as [|[w request] requests IH]; intros t Hs;
    [done|].
  cbn. by apply IH, analyze_ids_sorted.
Qed.

End ids.

(** C9. For every sequence of requests served from the empty table, the
    identifiers of the persisted rows, read in the order of creation, are
    strictly increasing: a row created later has a strictly greater
    identifier, and no two rows share one. *)
Theorem identifiers_increase requests :
  StronglySorted Z.lt (Db.id <$> serve requests [])
  ∧ NoDup (Db.id <$> serve requests []).
Proof.
  assert (StronglySorted Z.lt (Db.id <$> serve requests [])) as Hs
    by (apply serve_ids_sorted; constructor).
  split; [done|].
  induction Hs as [|x l Hs IH Hx]; constructor; [|done].
  intros Hin. rewrite Forall_forall in Hx. apply Hx in Hin. lia.
Qed.

(** ** The metadata extractor *)

(** C8. For every text, [analyze_text] called while the analyzer is not
    configured raises a [ValueError], the class the handler answers with
    status 400, not with 503. *)
Theorem analyze_text_unconfigured text :
  ∃ e, Llm.analyze_text None text = Raise e
       ∧ exc_class e = ValueError
       ∧ Api.on_exception e = Api.HTTPException 400 (exc_str e).
Proof.
  unfold Llm.analyze_text.
  destruct (Py.not_ text || Py.not_ (Py.strip text)); eexists; by split_and!.
Qed.

Lemma analyze_unconfigured w request t keywords :
  Api._analyzer w = None →
  extract_keywords (Api.nlp w) (Models.text request) 3 = Ok keywords →
  ∃ detail, Api.analyze w request t = (Api.HTTPException 400 detail, t).
Proof.
  intros Hw Hk.
  destruct (analyze_text_unconfigured (Models.text request))
    as (e & He & _ & Hresp).
  exists (exc_str e). rewrite <-Hresp.
  eapply analyze_metadata_fail; [done|]. by rewrite Hw.
Qed.

(** ** Malformed payloads *)

Section malformed.
Context (analyzer : Llm.TextAnalyzer) (text : string).
Hypothesis text_not_blank : Py.all_space text = false.

Lemma analyze_text_forward :
  Llm.analyze_text (Some analyzer) text
  = match Llm.forward analyzer text with
    | Ok md => Ok md
    | Raise e =>
        if looks_like_api_error (exc_str e)
        then Raise (raise_ RuntimeError ("LLM API error: " +:+ exc_str e))
        else Raise e
    end.
Proof.
  unfold Llm.analyze_text. by rewrite blank_all_space, text_not_blank.
Qed.

(** A payload that is not JSON leaves [analyze_text] as a [ValueError]. *)
Lemma analyze_text_not_json why :
  analyzer text = Llm.NotJson why →
  looks_like_api_error ("Failed to parse LLM response as JSON: " +:+ why)
  = false →
  Llm.analyze_text (Some analyzer) text
  = Raise (raise_ ValueError
             ("Failed to parse LLM response as JSON: " +:+ why)).
Proof.
  intros Ha Hm. rewrite analyze_text_forward. unfold Llm.forward.
  rewrite blank_all_space, text_not_blank, Ha. cbn [exc_str]. by rewrite Hm.
Qed.

(** So does an object that pydantic refuses. *)
Lemma analyze_text_rejected why :
  analyzer text = Llm.Rejected why →
  looks_like_api_error why = false →
  Llm.analyze_text (Some analyzer) text = Raise (raise_ ValueError why).
Proof.
  intros Ha Hm. rewrite analyze_text_forward. unfold Llm.forward.
  rewrite blank_all_space, text_not_blank, Ha. cbn [exc_str]. by rewrite Hm.
Qed.

(** JSON that is not an object leaves it as a [TypeError]. *)
Lemma analyze_text_not_mapping why :
  analyzer text = Llm.NotMapping why →
  looks_like_api_error why = false →
  Llm.analyze_text (Some analyzer) text = Raise (raise_ Exception why).
Proof.
  intros Ha Hm. rewrite analyze_text_forward. unfold Llm.forward.
  rewrite blank_all_space, text_not_blank, Ha. cbn [exc_str]. by rewrite Hm.
Qed.

End malformed.

(** The handler answers a payload that is not JSON, and an object that
    fails validation, with status 400; JSON that is not an object with
    503. *)
Lemma analyze_malformed_status w request t keywords analyzer :
  extract_keywords (Api.nlp w) (Models.text request) 3 = Ok keywords →
  Api._analyzer w = Some analyzer →
  Py.all_space (Models.text request) = false →
  match analyzer (Models.text request) with
  | Llm.NotJson why =>
      looks_like_api_error ("Failed to parse LLM response as JSON: " +:+ why)
      = false →
      Api.status_code_of (Api.analyze w request t).1 = 400%Z
  | Llm.Rejected why =>
      looks_like_api_error why = false →
      Api.status_code_of (Api.analyze w request t).1 = 400%Z
  | Llm.NotMapping why =>
      Api.status_code_of (Api.analyze w request t).1 = 503%Z
  | _ => True
  end.
Proof.
  intros Hk Hw Hb.
  destruct (analyzer (Models.text request)) as [e|why|why|why|md] eqn:Ha;
    [done| | | |done].
  - intros Hm.
    pose proof (analyze_text_not_json analyzer _ Hb why Ha Hm) as Hat.
    rewrite <-Hw in Hat.
    by rewrite (analyze_metadata_fail _ _ _ _ _ Hk Hat).
  - assert (∃ e, Llm.analyze_text (Some analyzer) (Models.text request)
                 = Raise e ∧ exc_class e ≠ ValueError) as (e & Hat & Hc).
    { rewrite analyze_text_forward by done. unfold Llm.forward.
      rewrite blank_all_space, Hb, Ha. cbn [exc_str].
      destruct (looks_like_api_error why); eexists; split; done. }
    rewrite <-Hw in Hat.
    rewrite (analyze_metadata_fail _ _ _ _ _ Hk Hat).
    cbn. unfold Api.on_exception. by destruct (exc_class e).
  - intros Hm.
    pose proof (analyze_text_rejected analyzer _ Hb why Ha Hm) as Hat.
    rewrite <-Hw in Hat.
    by rewrite (analyze_metadata_fail _ _ _ _ _ Hk Hat).
Qed.

(** C1. The handler documents status 503 for a model response that is not
    valid JSON. On the request below the model's payload is not JSON:
    [forward] turns the [JSONDecodeError] into a [ValueError],
    [analyze_text] lets it pass, and the handler answers with status 400,
    the answer it gives to client errors. *)
Theorem malformed_payload_answered_400 :
  let e := raise_ ValueError
    "Failed to parse LLM response as JSON: Expecting value: line 1 column 1 (char 0)" in
  Llm.forward Scenario.not_json Scenario.text = Raise e
  ∧ looks_like_api_error (exc_str e) = false
  ∧ Llm.analyze_text (Some Scenario.not_json) Scenario.text = Raise e
  ∧ Api.analyze (Scenario.world (Some Scenario.not_json)) Scenario.request []
    = (Api.HTTPException 400 (exc_str e), [])
  ∧ Api.status_code_of
      (Api.analyze (Scenario.world (Some Scenario.not_json))
         Scenario.request []).1 ≠ 503%Z.
Proof.
  intros e. split_and!; try reflexivity.
  change (400 ≠ 503)%Z. lia.
Qed.

(** ** The 201 response *)

Lemma post_analyze_created_inv w body_text t body t' :
  Api.post_analyze w body_text t = (Api.Created body, t') →
  body_text ≠ EmptyString
  ∧ Api.analyze w {| Models.text := body_text |} t = (Api.Created body, t').
Proof.
  unfold Api.post_analyze, Models.validate.
  destruct body_text as [|c s]; cbn; [done|]. by intros ->.
Qed.

(** C6. The extractor's metadata model describes its fields as three key
    topics, a sentiment among positive, neutral and negative, and a
    confidence between 0.0 and 1.0, and says it validates the model's
    output; it checks the types of the fields only.  On the request below
    the model returns two topics, the sentiment [mixed] and the confidence
    1.5: the request succeeds and the 201 response carries these values,
    outside the contract on each of the three fields. *)
Theorem off_contract_response :
  ∃ body t',
    Scenario.text ≠ EmptyString
    ∧ Api.post_analyze (Scenario.world (Some Scenario.off_contract))
        Scenario.text [] = (Api.Created body, t')
    ∧ length (Models.topics body) = 2%nat
    ∧ Models.sentiment body = "mixed"
    ∧ PrimFloat.leb (Models.confidence body) 1 = false
    ∧ ¬ in_contract (Models.topics body) (Models.sentiment body)
          (Models.confidence body).
Proof.
  eexists _, _. split; [done|]. split; [reflexivity|]. split_and!; try done.
  intros [H _]. discriminate H.
Qed.

(** X27. For every request to [analyze] that is answered with 201, the
    text is not empty and the topics, the sentiment and the confidence of
    the response the handler returns are those of the metadata the
    extractor returned, unchanged; so that response has exactly three
    topics, one of the three sentiments and a confidence between 0 and
    1 exactly when the extractor's metadata has. *)
Theorem created_response_carries_metadata w body_text t body t' :
  Api.post_analyze w body_text t = (Api.Created body, t') →
  body_text ≠ EmptyString
  ∧ ∃ metadata,
      Llm.analyze_text (Api._analyzer w) body_text = Ok metadata
      ∧ Models.topics body = Llm.topics metadata
      ∧ Models.sentiment body = Llm.sentiment metadata
      ∧ Models.confidence body = Llm.confidence metadata
      ∧ (in_contract (Models.topics body) (Models.sentiment body)
           (Models.confidence body)
         ↔ in_contract (Llm.topics metadata) (Llm.sentiment metadata)
             (Llm.confidence metadata)).
Proof.
  intros [Hne H]%post_analyze_created_inv. split; [done|].
  apply analyze_created_inv in H
    as (keywords & metadata & _ & Hmd & _ & -> & _).
  exists metadata. by split_and!.
Qed.

Lemma created_response_carries_metadata_witness :
  ∃ body t',
    Api.post_analyze (Scenario.world (Some Scenario.on_contract))
      Scenario.text [] = (Api.Created body, t')
    ∧ Models.topics body = ["animal diet"; "zebras"; "fruit"]
    ∧ Models.sentiment body = "neutral".
Proof.
  eexists _, _. split; [reflexivity|].
  destruct (created_response_carries_metadata
              (Scenario.world (Some Scenario.on_contract)) Scenario.text []
              _ _ eq_refl) as (_ & metadata & Hmd & Ht & Hs & _).
  injection Hmd as <-. by split.
Defined.

(** ** The search handler *)

Section order_facts.
Implicit Types (r : Db.Analysis) (l : list Db.Analysis).





End order_facts.

Section like_facts.
Implicit Types (p q s : string) (a c : ascii).







End like_facts.

Ltac each_char c :=
  destruct c as [[] [] [] [] [] [] [] []];
  try reflexivity; try discriminate.

Section char_facts.






End char_facts.

(** The text of a JSON column is ASCII. *)
Section ascii_facts.






End ascii_facts.

(** The text of a JSON column has no NUL, and SQLite reads all of it. *)
Section nul_facts.












End nul_facts.

Section term_facts.









End term_facts.

Section mention_facts.







End mention_facts.






(** C5. The handler documents a case-insensitive substring match of the
    topic in the topics and keywords. On the table below no row mentions
    [animal_diet]: the stored topic is [animal diet], with a space. The
    search returns the row all the same, because LIKE reads the underscore
    of the topic as a wildcard for any one character. *)
Theorem search_underscore_overmatch :
  List.filter (mentions "animal_diet") Scenario.table = []
  ∧ Api.search_rows (Some "animal_diet") Scenario.table
    = Some Scenario.table
  ∧ Models.count <$> Api.search (Some "animal_diet") Scenario.table
    = Some 1%nat.
Proof. by split_and!. Qed.


(** * Further properties *)

Import TopicSpec.

(** ** extract_keywords: size and content of the answer *)

(** The ranking of a stream lists its distinct lemmas. *)
Lemma ranking_remove_dups (nouns : list string) :
  (sorted_desc (Counter nouns)).*1 ≡ₚ remove_dups nouns.
Proof.
  destruct (ranking_spec nouns) as (Hnd & Hin & _). cbn in Hnd, Hin.
  apply NoDup_Permutation; [done|apply NoDup_remove_dups|].
  intros k. by rewrite Hin, elem_of_remove_dups.
Qed.

(** X1. [extract_keywords] returns as many keywords as there are distinct
    counted lemmas, cut at [top_n]: never more than [top_n], and none for a
    [top_n] that is not positive. *)
Theorem extract_keywords_length nlp text top_n kws :
  extract_keywords nlp text top_n = Ok kws →
  length kws
  = (Z.to_nat top_n `min` length (remove_dups (counted_lemmas nlp text)))%nat
  ∧ (length kws ≤ Z.to_nat top_n)%nat.
Proof.
  intros ->%extract_keywords_cases.
  rewrite length_take, ranking_remove_dups. lia.
Qed.

Lemma extract_keywords_length_witness :
  extract_keywords Scenario.pipeline Scenario.text 2 = Ok ["zebra"; "apple"]
  ∧ length ["zebra"; "apple"]
    = (2 `min` length (remove_dups
                         (counted_lemmas Scenario.pipeline Scenario.text)))%nat.
Proof.
  split; [reflexivity|].
  apply (extract_keywords_length Scenario.pipeline Scenario.text 2).
  reflexivity.
Defined.

(** X2. The answer of [extract_keywords] is empty exactly when [top_n] is
    not positive or no lemma was counted (blank text, or no token of the
    document qualifies). *)
Theorem extract_keywords_empty_iff nlp text top_n kws :
  extract_keywords nlp text top_n = Ok kws →
  kws = [] ↔ (top_n ≤ 0)%Z ∨ counted_lemmas nlp text = [].
Proof.
  intros ->%extract_keywords_cases.
  set (ranking := (sorted_desc (Counter (counted_lemmas nlp text))).*1).
  assert (ranking = [] ↔ counted_lemmas nlp text = []) as Hr.
  { subst ranking. split.
    - intros H. destruct (counted_lemmas nlp text) as [|x l] eqn:E; [done|].
      assert (x ∈ (sorted_desc (Counter (x :: l))).*1) as Hx
        by (apply ranking_spec; left).
      rewrite H in Hx. by apply elem_of_nil in Hx.
    - by intros ->. }
  rewrite <-Hr. split.
  - intros H. destruct (Z.to_nat top_n) eqn:En; [left; lia|].
    right. by destruct ranking.
  - intros [H| ->]; [|by rewrite take_nil].
    by replace (Z.to_nat top_n) with 0%nat by lia.
Qed.

(** A document of verbs only: nothing is counted, nothing is returned. *)
Lemma extract_keywords_empty_iff_witness :
  extract_keywords (fun _ => Ok [Scenario.verb "run"; Scenario.verb "jump"])
    Scenario.text 3 = Ok []
  ∧ counted_lemmas (fun _ => Ok [Scenario.verb "run"; Scenario.verb "jump"])
      Scenario.text = [].
Proof.
  split; [reflexivity|].
  destruct (proj1 (extract_keywords_empty_iff
                     (fun _ => Ok [Scenario.verb "run"; Scenario.verb "jump"])
                     Scenario.text 3 [] eq_refl) eq_refl) as [H|H].
  - exfalso. apply H. reflexivity.
  - exact H.
Defined.

(** X3. When the document has no more distinct counted lemmas than
    [top_n], [extract_keywords] returns all of them, each once. *)
Theorem extract_keywords_all_when_few nlp text top_n kws :
  extract_keywords nlp text top_n = Ok kws →
  (length (remove_dups (counted_lemmas nlp text)) ≤ Z.to_nat top_n)%nat →
  kws ≡ₚ remove_dups (counted_lemmas nlp text).
Proof.
  intros ->%extract_keywords_cases Hlen.
  rewrite take_ge; [apply ranking_remove_dups|].
  by rewrite ranking_remove_dups.
Qed.

Lemma extract_keywords_all_when_few_witness :
  extract_keywords Scenario.pipeline Scenario.text 5
  = Ok ["zebra"; "apple"; "mango"]
  ∧ ["zebra"; "apple"; "mango"]
    ≡ₚ remove_dups (counted_lemmas Scenario.pipeline Scenario.text).
Proof.
  split; [reflexivity|].
  apply (extract_keywords_all_when_few Scenario.pipeline Scenario.text 5);
    [reflexivity|].
  vm_compute. repeat constructor.
Defined.

(** X4. The first keyword [extract_keywords] returns is a most frequent
    lemma: no counted lemma occurs more often. *)
Theorem extract_keywords_head_most_frequent nlp text top_n kws a :
  extract_keywords nlp text top_n = Ok kws →
  kws !! 0%nat = Some a →
  ∀ b, b ∈ counted_lemmas nlp text →
    (occurrences b (counted_lemmas nlp text)
     ≤ occurrences a (counted_lemmas nlp text))%nat.
Proof.
  intros ->%extract_keywords_cases Ha b Hb.
  destruct (ranking_spec (counted_lemmas nlp text)) as (_ & Hin & Hs).
  cbn in Hin, Hs.
  set (ranking := (sorted_desc (Counter (counted_lemmas nlp text))).*1) in *.
  apply Hin in Hb.
  destruct ranking as [|a' ranking]; [by destruct (Z.to_nat top_n)|].
  destruct (Z.to_nat top_n); [done|]. cbn in Ha. injection Ha as ->.
  apply StronglySorted_inv in Hs as [_ Hall].
  apply elem_of_cons in Hb as [->|Hb]; [done|].
  rewrite Forall_forall in Hall. destruct (Hall b Hb) as [?|[? _]]; lia.
Qed.

Lemma extract_keywords_head_most_frequent_witness :
  extract_keywords Scenario.pipeline Scenario.text 1 = Ok ["zebra"]
  ∧ (occurrences "mango" (counted_lemmas Scenario.pipeline Scenario.text)
     ≤ occurrences "zebra" (counted_lemmas Scenario.pipeline Scenario.text))%nat.
Proof.
  split; [reflexivity|].
  apply (extract_keywords_head_most_frequent Scenario.pipeline Scenario.text
           1 ["zebra"] "zebra" eq_refl eq_refl).
  vm_compute. do 4 right. left.
Defined.

Lemma isspace_lower_char c : Py.isspace (Py.lower_char c) = Py.isspace c.
Proof. each_char c. Qed.

Lemma all_space_lower s : Py.all_space (Py.lower s) = Py.all_space s.
Proof.
  induction s as [|c s IH]; [done|]. cbn. by rewrite isspace_lower_char, IH.
Qed.

(** X5. [extract_keywords] reads its text through [lower] only: two texts
    that differ in case alone get the same answer, keywords or exception. *)
Theorem extract_keywords_case_insensitive nlp text text' top_n :
  Py.lower text = Py.lower text' →
  extract_keywords nlp text top_n = extract_keywords nlp text' top_n.
Proof.
  intros H. unfold extract_keywords. rewrite !blank_all_space.
  rewrite <-(all_space_lower text), <-(all_space_lower text'), H. done.
Qed.

Lemma extract_keywords_case_insensitive_witness :
  extract_keywords Scenario.pipeline "Python is GREAT" 3
  = extract_keywords Scenario.pipeline "python IS great" 3.
Proof.
  apply extract_keywords_case_insensitive. reflexivity.
Defined.

(** X6. Asking for fewer keywords gives a prefix of the answer for more:
    for [n <= m], the answer for [n] is the first [n] keywords of the
    answer for [m]. *)
Theorem extract_keywords_prefix nlp text n m kn km :
  (n ≤ m)%Z →
  extract_keywords nlp text n = Ok kn →
  extract_keywords nlp text m = Ok km →
  kn = take (Z.to_nat n) km.
Proof.
  intros Hnm ->%extract_keywords_cases ->%extract_keywords_cases.
  rewrite take_take. f_equal. lia.
Qed.

Lemma extract_keywords_prefix_witness :
  ["zebra"] = take (Z.to_nat 1) ["zebra"; "apple"; "mango"].
Proof.
  apply (extract_keywords_prefix Scenario.pipeline Scenario.text 1 3).
  - intros H. discriminate H.
  - reflexivity.
  - reflexivity.
Defined.

(** X7. [extract_keywords] raises exactly when the text is not blank and
    the pipeline raises on the lower-cased text, and then it raises the
    pipeline's exception. *)
Theorem extract_keywords_raises_iff nlp text top_n e :
  extract_keywords nlp text top_n = Raise e
  ↔ Py.all_space text = false ∧ nlp (Py.lower text) = Raise e.
Proof.
  split; [apply extract_keywords_raises|].
  intros [Hb He]. unfold extract_keywords. by rewrite blank_all_space, Hb, He.
Qed.

(** ** analyze_text and the error answers of analyze *)

(** X8. [analyze_text] returns metadata exactly when the text is not
    blank, the analyzer is configured and the model's payload validates,
    and then it returns the validated payload. *)
Theorem analyze_text_ok_iff _analyzer text md :
  Llm.analyze_text _analyzer text = Ok md
  ↔ Py.all_space text = false
    ∧ ∃ analyzer, _analyzer = Some analyzer ∧ analyzer text = Llm.Valid md.
Proof.
  unfold Llm.analyze_text, Llm.forward. rewrite blank_all_space.
  destruct (Py.all_space text); [split; [done|by intros [? _]]|].
  destruct _analyzer as [analyzer|];
    [|split; [done|by intros [_ (? & ? & _)]]].
  split.
  - intros H. split; [done|]. exists analyzer. split; [done|].
    destruct (analyzer text) as [e|why|why|why|md']; cbn [exc_str] in H;
      repeat match type of H with
             | context [if ?b then _ else _] => destruct b
             end; congruence.
  - intros [_ (analyzer' & [= <-] & ->)]. done.
Qed.

(** X9. When the configured analyzer raises on a text that is not blank,
    the handler's answer depends on the text of the exception: if it
    contains [API], or [rate] in any case, the answer is 503 with the
    detail of a service failure, whatever the class of the exception;
    otherwise the exception is answered by its class. The table is
    unchanged. *)
Theorem analyze_llm_failure w request t keywords analyzer e :
  extract_keywords (Api.nlp w) (Models.text request) 3 = Ok keywords →
  Api._analyzer w = Some analyzer →
  Py.all_space (Models.text request) = false →
  Llm.forward analyzer (Models.text request) = Raise e →
  Api.analyze w request t
  = (if looks_like_api_error (exc_str e)
     then Api.HTTPException 503
            ("Service temporarily unavailable: LLM API error: " +:+ exc_str e)
     else Api.on_exception e, t).
Proof.
  intros Hk Hw Hb Hf.
  assert (Llm.analyze_text (Api._analyzer w) (Models.text request)
          = Raise (if looks_like_api_error (exc_str e)
                   then raise_ RuntimeError ("LLM API error: " +:+ exc_str e)
                   else e)) as Hat.
  { rewrite Hw, analyze_text_forward, Hf by done.
    by destruct (looks_like_api_error (exc_str e)). }
  rewrite (analyze_metadata_fail _ _ _ _ _ Hk Hat).
  by destruct (looks_like_api_error (exc_str e)).
Qed.

(** The model's API refuses the call for its rate limit. *)
Lemma analyze_llm_failure_witness :
  Api.analyze
    (Scenario.world
       (Some (fun _ => Llm.CallRaises
                         (raise_ Exception "Rate limit reached for requests"))))
    Scenario.request Scenario.table
  = (Api.HTTPException 503
       "Service temporarily unavailable: LLM API error: Rate limit reached for requests",
     Scenario.table).
Proof.
  apply (analyze_llm_failure _ _ _ ["zebra"; "apple"; "mango"]
           (fun _ => Llm.CallRaises
                       (raise_ Exception "Rate limit reached for requests"))
           (raise_ Exception "Rate limit reached for requests"));
    reflexivity.
Defined.

(** X10. A text of white space only passes the schema layer and is
    answered with status 400 and the detail [Text cannot be empty],
    whatever the pipeline, the analyzer and the engine; nothing is
    persisted. *)
Theorem analyze_blank_text w body_text t :
  body_text ≠ EmptyString → Py.all_space body_text = true →
  Api.post_analyze w body_text t
  = (Api.HTTPException 400 "Text cannot be empty", t).
Proof.
  intros Hne Hb. unfold Api.post_analyze, Models.validate.
  destruct body_text as [|c s]; [done|]. cbn [String.length Nat.leb].
  change (Api.HTTPException 400 "Text cannot be empty")
    with (Api.on_exception (raise_ ValueError "Text cannot be empty")).
  apply (analyze_metadata_fail _ _ _ []); cbn [Models.text].
  - unfold extract_keywords. by rewrite blank_all_space, Hb.
  - unfold Llm.analyze_text. by rewrite blank_all_space, Hb.
Qed.

Lemma analyze_blank_text_witness :
  Api.post_analyze (Scenario.world (Some Scenario.on_contract)) "   "
    Scenario.table
  = (Api.HTTPException 400 "Text cannot be empty", Scenario.table).
Proof.
  apply analyze_blank_text; [|reflexivity].
  intros H. discriminate H.
Defined.

(** X11. A request to [POST /analyze] is answered with status 201, 400,
    422 or 503 and no other; the status is 422 exactly when the text is
    empty. *)
Theorem post_analyze_status w body_text t :
  let status := Api.status_code_of (Api.post_analyze w body_text t).1 in
  (status = 201 ∨ status = 400 ∨ status = 422 ∨ status = 503)%Z
  ∧ (status = 422%Z ↔ body_text = EmptyString).
Proof.
  unfold Api.post_analyze, Models.validate.
  destruct body_text as [|c s]; cbn [String.length Nat.leb].
  - cbn. split; [auto|done].
  - destruct (analyze_outcome w {| Models.text := String c s |} t)
      as [[e ->]|[(? & ? & _ & _ & _ & ->)
                 |(? & ? & e & _ & _ & _ & _ & ->)]]; cbn.
    + destruct (on_exception_status e) as [-> | ->]; split; auto; split; done.
    + split; [auto|]. split; done.
    + destruct (on_exception_status e) as [-> | ->]; split; auto; split; done.
Qed.

(** ** The row analyze persists *)

(** X12. A request that is answered with 201 appends one row to the
    table: the row has the next identifier, the clock's time and the
    request's text, it carries the keywords of [extract_keywords] and the
    summary and title of the extractor's metadata, and the body of the
    response is that row. *)
Theorem analyze_created_row w request t body t' :
  Api.analyze w request t = (Api.Created body, t') →
  ∃ row metadata,
    t' = t ++ [row]
    ∧ body = Api.to_response row
    ∧ Db.id row = Db.next_id t
    ∧ Db.created_at row = Api.utcnow w
    ∧ Db.raw_text row = Models.text request
    ∧ extract_keywords (Api.nlp w) (Models.text request) 3
      = Ok (Models.keywords body)
    ∧ Llm.analyze_text (Api._analyzer w) (Models.text request) = Ok metadata
    ∧ Models.summary body = Llm.summary metadata
    ∧ Models.title body = Llm.title metadata.
Proof.
  intros (keywords & metadata & Hk & Hmd & _ & -> & ->)%analyze_created_inv.
  eexists _, metadata. by split_and!.
Qed.

Lemma analyze_created_row_witness :
  ∃ body row,
    Api.analyze (Scenario.world (Some Scenario.on_contract))
      Scenario.request Scenario.table
    = (Api.Created body, Scenario.table ++ [row])
    ∧ Db.id row = Db.next_id Scenario.table
    ∧ Db.created_at row = 1700000000%Z
    ∧ Db.raw_text row = Scenario.text.
Proof.
  eexists _, _. split; [reflexivity|].
  destruct (analyze_created_row
              (Scenario.world (Some Scenario.on_contract))
              Scenario.request Scenario.table _ _ eq_refl)
    as (row & metadata & Ht & _ & Hid & Hat & Hraw & _).
  apply app_inj_tail in Ht as [_ <-].
  split; [exact Hid|]. split; [exact Hat|exact Hraw].
Defined.

(** X13. The keywords of a 201 response are at most three and pairwise
    distinct. *)
Theorem analyze_response_keywords w request t body t' :
  Api.analyze w request t = (Api.Created body, t') →
  (length (Models.keywords body) ≤ 3)%nat ∧ NoDup (Models.keywords body).
Proof.
  intros (keywords & metadata & Hk & _ & _ & -> & _)%analyze_created_inv.
  cbn. apply extract_keywords_cases in Hk as ->. split.
  - rewrite length_take. change (Z.to_nat 3) with 3%nat. lia.
  - eapply sublist_NoDup; [|apply sublist_take]. apply ranking_spec.
Qed.

Lemma analyze_response_keywords_witness :
  ∃ body t',
    Api.analyze (Scenario.world (Some Scenario.on_contract))
      Scenario.request [] = (Api.Created body, t')
    ∧ (length (Models.keywords body) ≤ 3)%nat
    ∧ NoDup (Models.keywords body).
Proof.
  eexists _, _. split; [reflexivity|].
  apply (analyze_response_keywords
           (Scenario.world (Some Scenario.on_contract)) Scenario.request []
           _ _ eq_refl).
Defined.

(** X14. A request leaves the table as it was or adds one row to it.  A
    request answered with 201 has added its row, and a request that left
    the table as it was is answered with another status.  When the read
    back after the commit succeeds, a row is added exactly when the answer
    is 201; the one way to add a row with another status is that the read
    back fails, and the answer is then the error response of that
    failure. *)
Theorem analyze_created_iff_row w request t :
  let response := (Api.analyze w request t).1 in
  let t' := (Api.analyze w request t).2 in
  (t' = t ∨ ∃ row, t' = t ++ [row])
  ∧ (Api.status_code_of response = 201%Z → length t' = S (length t))
  ∧ (t' = t → Api.status_code_of response ≠ 201%Z)
  ∧ (Api.refresh_error w = None →
     (Api.status_code_of response = 201%Z ↔ length t' = S (length t))
     ∧ (Api.status_code_of response ≠ 201%Z ↔ t' = t))
  ∧ (Api.status_code_of response ≠ 201%Z → t' ≠ t →
     ∃ e, Api.refresh_error w = Some e ∧ response = Api.on_exception e).
Proof.
  assert (∀ row : Db.Analysis, t ++ [row] ≠ t) as Happ.
  { intros row H. apply (f_equal length) in H. rewrite length_app in H.
    cbn in H. lia. }
  assert (∀ e, Api.status_code_of (Api.on_exception e) ≠ 201%Z) as Herr.
  { intros e. destruct (on_exception_status e) as [-> | ->]; lia. }
  destruct (analyze_outcome w request t)
    as [[e ->]|[(? & ? & _ & _ & _ & ->)
               |(? & ? & e & _ & _ & _ & Hr & ->)]]; cbn [fst snd].
  - specialize (Herr e). split_and!.
    + by left.
    + done.
    + done.
    + intros _. split; split; try done; lia.
    + done.
  - cbn [Api.status_code_of]. rewrite length_app. cbn [length]. split_and!.
    + right. by eexists.
    + lia.
    + intros H. by apply Happ in H.
    + intros _. split; split; try done; try lia.
      intros H. by apply Happ in H.
    + done.
  - specialize (Herr e). rewrite length_app. cbn [length]. split_and!.
    + right. by eexists.
    + done.
    + intros H. by apply Happ in H.
    + intros H. by rewrite Hr in H.
    + intros _ _. by exists e.
Qed.

(** The read back fails after the commit: the row stays. *)
Lemma analyze_created_iff_row_witness :
  let w := {| Api.nlp := Scenario.pipeline;
              Api._analyzer := Some Scenario.on_contract;
              Api.utcnow := 1700000000;
              Api.engine_error := None;
              Api.refresh_error :=
                Some (raise_ Exception "database is locked") |} in
  Api.status_code_of (Api.analyze w Scenario.request []).1 = 503%Z
  ∧ length (Api.analyze w Scenario.request []).2 = 1%nat
  ∧ (Api.analyze w Scenario.request []).1
    = Api.on_exception (raise_ Exception "database is locked").
Proof.
  intros w. split; [reflexivity|]. split; [reflexivity|].
  destruct (analyze_created_iff_row w Scenario.request [])
    as (_ & _ & _ & _ & H).
  destruct H as (e & He & Hresp).
  - vm_compute. intros E. discriminate E.
  - vm_compute. intros E. discriminate E.
  - injection He as <-. exact Hresp.
Defined.

(** X15. Serving requests only appends to the table: the rows that were
    there stay, in place and unchanged, and at most one row is added for
    each request. *)
Theorem serve_appends requests t :
  ∃ new, serve requests t = t ++ new ∧ (length new ≤ length requests)%nat.
Proof.
  revert t; induction requests as [|[w request] requests IH]; intros t.
  - exists []. by rewrite app_nil_r.
  - cbn [serve].
    destruct (IH (Api.analyze w request t).2) as (new & -> & Hlen).
    destruct (analyze_table w request t) as [->|(row & -> & _)].
    + exists new. split; [done|]. cbn. lia.
    + exists (row :: new). rewrite <-app_assoc. split; [done|]. cbn. lia.
Qed.

Section numbering.

Lemma max_id_app t1 t2 :
  Db.max_id (t1 ++ t2) = Z.max (Db.max_id t1) (Db.max_id t2).
Proof.
  unfold Db.max_id. induction t1 as [|r t1 IH]; cbn.
  - assert (0 ≤ foldr (λ r m, Db.id r `max` m) 0 t2)%Z; [|lia].
    induction t2; cbn; lia.
  - rewrite IH. lia.
Qed.

Lemma max_id_numbered t :
  Db.id <$> t = seqZ 1 (Z.of_nat (length t)) →
  Db.max_id t = Z.of_nat (length t).
Proof.
  induction t as [|r t IH] using rev_ind; [done|].
  rewrite fmap_app, length_app, Nat2Z.inj_add, seqZ_app by lia.
  cbn [length fmap list_fmap]. change (Z.of_nat 1) with 1%Z.
  intros H. apply app_inj_1 in H as [Ht Hr];
    [|by rewrite length_fmap, length_seqZ, Nat2Z.id].
  cbn in Hr. injection Hr as Hr.
  rewrite max_id_app, IH by done. unfold Db.max_id at 1. cbn. lia.
Qed.

Lemma analyze_numbered w request t :
  Db.id <$> t = seqZ 1 (Z.of_nat (length t)) →
  Db.id <$> (Api.analyze w request t).2
  = seqZ 1 (Z.of_nat (length (Api.analyze w request t).2)).
Proof.
  intros Ht.
  destruct (analyze_table w request t) as [->|(row & Hrow & _)]; [done|].
  assert (Db.id row = Db.next_id t) as Hid.
  { destruct (analyze_outcome w request t)
      as [[e He]|[(? & ? & _ & _ & _ & He)
                 |(? & ? & e & _ & _ & _ & _ & He)]];
      rewrite He in Hrow; cbn [snd] in Hrow.
    - apply (f_equal length) in Hrow. rewrite length_app in Hrow.
      cbn in Hrow. lia.
    - by apply app_inj_tail in Hrow as [_ <-].
    - by apply app_inj_tail in Hrow as [_ <-]. }
  rewrite Hrow.
  rewrite fmap_app, length_app, Nat2Z.inj_add, seqZ_app, Ht by lia.
  f_equal. cbn. rewrite Hid. unfold Db.next_id.
  rewrite max_id_numbered by done.
  change (Z.of_nat 1) with 1%Z. rewrite seqZ_cons, seqZ_nil by lia.
  f_equal. lia.
Qed.

End numbering.

(** X16. Served from the empty table, the rows are numbered 1, 2, 3, ...
    in the order of creation, without gaps: a request that persists
    nothing uses up no identifier. *)
Theorem identifiers_count_from_one requests :
  Db.id <$> serve requests []
  = seqZ 1 (Z.of_nat (length (serve requests []))).
Proof.
  assert (∀ t, Db.id <$> t = seqZ 1 (Z.of_nat (length t)) →
    Db.id <$> serve requests t
    = seqZ 1 (Z.of_nat (length (serve requests t)))) as H.
  { induction requests as [|[w request] requests IH]; intros t Ht; [done|].
    cbn [serve]. by apply IH, analyze_numbered. }
  by apply H.
Qed.

(** ** search: what it returns *)











Section wildcard_only.






End wildcard_only.





Section non_ascii.





Lemma has_non_ascii_app s1 s2 :
  has_non_ascii (s1 +:+ s2) = has_non_ascii s1 || has_non_ascii s2.
Proof.
  induction s1 as [|c s1 IH]; [done|].
  change (String c s1 +:+ s2) with (String c (s1 +:+ s2)).
  cbn [has_non_ascii]. by rewrite IH, orb_assoc.
Qed.



End non_ascii.





(** ** analyze, then search *)

Section substrings.
Implicit Types (n h r : string).








End substrings.

Section items.






End items.



Section creation_order.






End creation_order.



(** ** The quality script *)

Section quality.
Import Evals.

Lemma filter_length_le {A} (f : A → bool) (l : list A) :
  (length (List.filter f l) ≤ length l)%nat.
Proof. induction l as [|x l IH]; cbn; [done|]. destruct (f x); cbn; lia. Qed.

Lemma filter_length_mono {A} (f g : A → bool) (l : list A) :
  (∀ x, x ∈ l → f x = true → g x = true) →
  (length (List.filter f l) ≤ length (List.filter g l))%nat.
Proof.
  induction l as [|x l IH]; cbn; intros H; [done|].
  assert (length (List.filter f l) ≤ length (List.filter g l))%nat as IH'
    by (apply IH; intros; apply H; [by right|done]).
  destruct (f x) eqn:Ef.
  - rewrite (H x) by (done || by left). cbn. lia.
  - destruct (g x); cbn; lia.
Qed.

Lemma run_one_match test_case attempt :
  sentiment_match (run_one test_case attempt) = true →
  success (run_one test_case attempt) = true.
Proof.
  destruct attempt as [|status_code sentiment]; cbn; [done|].
  by destruct (status_code =? 201)%Z.
Qed.

(** X25. [run_quality_tests] records one result for each test case, in
    order and under the name of the case, whether the request succeeds,
    fails or raises; and in its summary the number of correct sentiments
    does not exceed the number of successful extractions, which does not
    exceed the total. *)
Theorem run_quality_tests_summary cases :
  let results := run_quality_tests cases in
  total results = length cases
  ∧ result_name <$> results = (λ p, name p.1) <$> cases
  ∧ (sentiment_correct results ≤ successful results)%nat
  ∧ (successful results ≤ total results)%nat.
Proof.
  cbn. unfold total, successful, sentiment_correct, run_quality_tests.
  split_and!.
  - by rewrite length_fmap.
  - rewrite <-list_fmap_compose. apply list_fmap_ext.
    intros i [test_case attempt] _. cbn.
    destruct attempt as [|s ?]; [done|]. cbn. by destruct (s =? 201)%Z.
  - apply filter_length_mono.
    intros r ([test_case attempt] & -> & _)%list_elem_of_fmap.
    apply run_one_match.
  - apply filter_length_le.
Qed.

End quality.
